(** * Document processor: a shallow embedding of
      [backend/src/agent/document_processor.py] and of the two schemas of
      [backend/src/agent/tools_and_schemas.py] it uses.

    Python values are modelled as follows.
    - [str] is a list of Unicode code points; [lit] turns an ASCII literal of
      the source into such a list.
    - [int] indices are in [Z], so that the [-1] of [str.find] is itself.
    - an expression that may raise is a [result]: [Ok v] or [Raise e], for
      the exceptions derived from [Exception] (the ones [except Exception]
      catches).
    - the collaborators behind the imports (the model, the file system, the
      PDF, DOCX, CSV and image libraries, [json.loads], pydantic's
      coercions) are the fields of a [World]; every function of the class
      takes the world it runs in. *)

From Stdlib Require Import List String Ascii ZArith NArith Lia Bool.
From Stdlib.Strings Require Import Byte.
From Stdlib Require Import DecimalString.
Import ListNotations.

(** ** Python strings *)

Module Py.

Definition codepoint := N.
Definition str := list codepoint.

(** An ASCII literal of the source. *)
Definition lit (s : string) : str :=
  map N_of_ascii (list_ascii_of_string s).

(** [s.startswith(p)] *)
Fixpoint startswith (p s : str) : bool :=
  match p, s with
  | [], _ => true
  | _ :: _, [] => false
  | a :: p', b :: s' => N.eqb a b && startswith p' s'
  end.

(** [sub in s] *)
Fixpoint contains (sub s : str) : bool :=
  startswith sub s ||
  match s with
  | [] => false
  | _ :: t => contains sub t
  end.

(** [s.find(sub)]: the lowest index where [sub] starts, [-1] when there is
    none. [find_from] carries the index of the head of the remaining text. *)
Fixpoint find_from (sub s : str) (i : Z) : Z :=
  if startswith sub s then i
  else match s with
       | [] => (-1)%Z
       | _ :: t => find_from sub t (i + 1)%Z
       end.

Definition find (sub s : str) : Z := find_from sub s 0%Z.

(** [s.rfind(sub)]: the highest index where [sub] starts, [-1] when there is
    none. [best] is the highest index found so far. *)
Fixpoint rfind_from (sub s : str) (i best : Z) : Z :=
  let best' := if startswith sub s then i else best in
  match s with
  | [] => best'
  | _ :: t => rfind_from sub t (i + 1)%Z best'
  end.

Definition rfind (sub s : str) : Z := rfind_from sub s 0%Z (-1)%Z.

(** A slice bound, as Python normalises it against a length [n]: a negative
    bound counts from the end, and both are clamped to [0 .. n]. *)
Definition clamp_index (n i : Z) : Z :=
  if (i <? 0)%Z then Z.max (i + n) 0 else Z.min i n.

(** [s[i:j]] *)
Definition slice (s : str) (i j : Z) : str :=
  let n := Z.of_nat (List.length s) in
  let lo := clamp_index n i in
  let hi := clamp_index n j in
  firstn (Z.to_nat (hi - lo)) (skipn (Z.to_nat lo) s).

(** [s[:j]] *)
Definition slice_to (s : str) (j : Z) : str := slice s 0%Z j.

(** [sep.join(xs)] *)
Fixpoint join (sep : str) (xs : list str) : str :=
  match xs with
  | [] => []
  | [x] => x
  | x :: rest => x ++ sep ++ join sep rest
  end.

(** [str(n)] for a non-negative [int]. *)
Definition str_of_nat (n : nat) : str :=
  lit (NilEmpty.string_of_uint (Nat.to_uint n)).

(** [repr(k)] of a string without quotes, backslashes or unprintable
    characters: the text between single quotes. *)
Definition repr_plain (k : str) : str := lit "'" ++ k ++ lit "'".

(** The lower-case mapping of an ASCII code point. *)
Definition ascii_lower (c : codepoint) : codepoint :=
  if (65 <=? c)%N && (c <=? 90)%N then (c + 32)%N else c.

End Py.

Import Py.

(** ** Exceptions and results *)

Inductive exn : Type :=
| KeyError (key : str)
| ValueError (msg : str)
| TypeError (msg : str)
| AttributeError (msg : str)
| UnboundLocalError (msg : str)
| ValidationError (msg : str)
| LibraryError (cls : string) (msg : str).

(** [str(e)]. A [KeyError] prints the [repr] of its key. *)
Definition exn_str (e : exn) : str :=
  match e with
  | KeyError k => repr_plain k
  | ValueError m | TypeError m | AttributeError m | UnboundLocalError m
  | ValidationError m | LibraryError _ m => m
  end.

Inductive result (A : Type) : Type :=
| Ok (v : A)
| Raise (e : exn).

Arguments Ok {A} v.
Arguments Raise {A} e.

Definition bind {A B : Type} (r : result A) (k : A -> result B) : result B :=
  match r with
  | Ok v => k v
  | Raise e => Raise e
  end.

(** [try: body  except Exception as e: handler(e)] *)
Definition try_except {A : Type} (body : result A) (handler : exn -> result A)
  : result A :=
  match body with
  | Ok v => Ok v
  | Raise e => handler e
  end.

Declare Scope py_scope.
Delimit Scope py_scope with py.
Notation "x <- c ;; k" := (bind c (fun x => k))
  (at level 61, c at next level, right associativity) : py_scope.
Open Scope py_scope.

(** ** Values of [json.loads] *)

Set Warnings "-register-all".

(** A [float] is kept as the pair [m], [e] of its value [m * 2^e]; a [dict]
    is the list of its items in insertion order, with distinct keys. *)
Inductive json : Type :=
| JNull
| JBool (b : bool)
| JInt (z : Z)
| JFloat (m e : Z)
| JStr (s : str)
| JArr (xs : list json)
| JObj (items : list (str * json)).

Fixpoint str_eqb (a b : str) : bool :=
  match a, b with
  | [], [] => true
  | x :: a', y :: b' => N.eqb x y && str_eqb a' b'
  | _, _ => false
  end.

Fixpoint dict_get (k : str) (items : list (str * json)) : option json :=
  match items with
  | [] => None
  | (k', v) :: rest => if str_eqb k k' then Some v else dict_get k rest
  end.

(** The [content] of the message the model returns: text, or a list of
    content blocks. *)
Inductive content : Type :=
| ContentStr (text : str)
| ContentList (blocks : list json).

(** ** Data frames, as far as the CSV report reads them *)

(** A column type: what [str(dtype)] prints, and whether
    [select_dtypes(include=['number'])] keeps it. *)
Record dtype : Type := {
  dtype_name : str;
  dtype_is_number : bool
}.

Inductive cell : Type :=
| CellInt (z : Z)
| CellFloat (m e : Z)
| CellBool (b : bool)
| CellStr (s : str)
| CellNaN.

Record DataFrame : Type := {
  df_columns : list (str * dtype);
  df_rows : list (list cell)
}.

(** [len(df)] *)
Definition df_len (df : DataFrame) : nat := List.length (df_rows df).

(** [df.head()]: the first five rows. *)
Definition df_head (df : DataFrame) : DataFrame :=
  {| df_columns := df_columns df; df_rows := firstn 5 (df_rows df) |}.

Fixpoint keep {A : Type} (flags : list bool) (xs : list A) : list A :=
  match flags, xs with
  | true :: fs, x :: xs' => x :: keep fs xs'
  | false :: fs, _ :: xs' => keep fs xs'
  | _, _ => []
  end.

(** [df.select_dtypes(include=['number']).columns] *)
Definition numeric_columns (df : DataFrame) : list str :=
  map fst (filter (fun c => dtype_is_number (snd c)) (df_columns df)).

(** [df[numeric_cols]] *)
Definition df_numeric (df : DataFrame) : DataFrame :=
  let flags := map (fun c => dtype_is_number (snd c)) (df_columns df) in
  {| df_columns := keep flags (df_columns df);
     df_rows := map (keep flags) (df_rows df) |}.

(** What [Image.open] gives: [img.format] (possibly [None]), [img.size] and
    [img.mode]. *)
Record ImageInfo : Type := {
  img_format : option str;
  img_size : nat * nat;
  img_mode : str
}.

(** ** The world a processor runs in *)

Record World : Type := {
  (** [str.lower] on a code point outside ASCII (it may give several code
      points; where Unicode makes the result depend on the neighbours, as
      for the capital sigma, the table holds one of the results). *)
  unicode_lower : codepoint -> str;
  (** The message of the [TypeError] of [v[key]] on a value that is not a
      [dict]. *)
  subscript_message : json -> str;
  (** The message of the [UnicodeDecodeError] of a text-mode read. *)
  decode_message : list byte -> str;
  (** [self.llm.invoke(prompt).content] *)
  llm_invoke : str -> result content;
  (** [json.loads] *)
  json_loads : str -> result json;
  (** pydantic's coercion of a value that is not a [str] into a [str] field
      ([None]: the value is refused). *)
  coerce_to_str : json -> option str;
  (** The message of pydantic's [ValidationError] for the four arguments
      given to [DocumentAnalysis]. *)
  validation_message : list json -> str;
  (** The bytes of a file opened for reading. *)
  read_bytes : str -> result (list byte);
  (** [PyPDF2.PdfReader(open(path, 'rb')).pages], each page with what its
      [extract_text()] does. *)
  pdf_pages : str -> result (list (result str));
  (** [[p.text for p in Document(path).paragraphs]] *)
  docx_paragraphs : str -> result (list str);
  (** [pd.read_csv]; the labels it reads from the header line are [str]. *)
  read_csv : str -> result DataFrame;
  (** [df.to_string()] *)
  to_string : DataFrame -> str;
  (** [df.describe().to_string()] *)
  describe_to_string : DataFrame -> str;
  (** [Image.open] *)
  image_open : str -> result ImageInfo
}.

(** ** [tools_and_schemas.py] *)

Record FileUpload : Type := {
  filename : str;
  content_type : str;
  file_size : Z;
  file_path : str
}.

Record DocumentAnalysis : Type := {
  document_type : str;
  summary : str;
  key_insights : list str;
  questions_answered : list str
}.

(** Validation of a [str] field: a [str] is taken as it is. *)
Definition validate_str (w : World) (v : json) : option str :=
  match v with
  | JStr s => Some s
  | _ => coerce_to_str w v
  end.

Fixpoint validate_each (w : World) (vs : list json) : option (list str) :=
  match vs with
  | [] => Some []
  | v :: rest =>
      match validate_str w v, validate_each w rest with
      | Some s, Some ss => Some (s :: ss)
      | _, _ => None
      end
  end.

(** Validation of a [List[str]] field: a list whose items all validate. *)
Definition validate_str_list (w : World) (v : json) : option (list str) :=
  match v with
  | JArr vs => validate_each w vs
  | _ => None
  end.

(** [DocumentAnalysis(document_type=.., summary=.., key_insights=..,
    questions_answered=..)] *)
Definition DocumentAnalysis_init (w : World)
    (document_type summary key_insights questions_answered : json)
  : result DocumentAnalysis :=
  match validate_str w document_type, validate_str w summary,
        validate_str_list w key_insights,
        validate_str_list w questions_answered with
  | Some d, Some s, Some k, Some q =>
      Ok {| document_type := d; summary := s;
            key_insights := k; questions_answered := q |}
  | _, _, _, _ =>
      Raise (ValidationError
               (validation_message w
                  [document_type; summary; key_insights; questions_answered]))
  end.

(** ** Text files: UTF-8 and universal newlines *)

Module Utf8.

Definition between (lo hi b : N) : bool := (lo <=? b)%N && (b <=? hi)%N.

(** A continuation byte, [10xxxxxx]. *)
Definition cont (b : N) : bool := between 128 191 b.

(** The second byte of a three-byte sequence: no overlong form after [E0],
    no surrogate after [ED]. *)
Definition second3 (b0 b1 : N) : bool :=
  if (b0 =? 224)%N then between 160 191 b1
  else if (b0 =? 237)%N then between 128 159 b1
  else cont b1.

(** The second byte of a four-byte sequence: no overlong form after [F0],
    nothing above [U+10FFFF] after [F4]. *)
Definition second4 (b0 b1 : N) : bool :=
  if (b0 =? 240)%N then between 144 191 b1
  else if (b0 =? 244)%N then between 128 143 b1
  else cont b1.

(** The strict decoder of the ['utf-8'] codec, on byte values. *)
Fixpoint decode (bs : list N) : option str :=
  match bs with
  | [] => Some []
  | b0 :: t0 =>
      if (b0 <? 128)%N then option_map (cons b0) (decode t0)
      else
        match t0 with
        | [] => None
        | b1 :: t1 =>
            if between 194 223 b0 then
              if cont b1
              then option_map (cons ((b0 - 192) * 64 + (b1 - 128))%N)
                              (decode t1)
              else None
            else
              match t1 with
              | [] => None
              | b2 :: t2 =>
                  if between 224 239 b0 then
                    if second3 b0 b1 && cont b2
                    then option_map
                           (cons ((b0 - 224) * 4096 + (b1 - 128) * 64
                                  + (b2 - 128))%N)
                           (decode t2)
                    else None
                  else
                    match t2 with
                    | [] => None
                    | b3 :: t3 =>
                        if between 240 244 b0 && second4 b0 b1
                           && cont b2 && cont b3
                        then option_map
                               (cons ((b0 - 240) * 262144
                                      + (b1 - 128) * 4096
                                      + (b2 - 128) * 64 + (b3 - 128))%N)
                               (decode t3)
                        else None
                    end
              end
        end
  end.

(** The UTF-8 bytes of a code point. *)
Definition encode_cp (c : codepoint) : list N :=
  if (c <? 128)%N then [c]
  else if (c <? 2048)%N then [192 + c / 64; 128 + c mod 64]%N
  else if (c <? 65536)%N
  then [224 + c / 4096; 128 + (c / 64) mod 64; 128 + c mod 64]%N
  else [240 + c / 262144; 128 + (c / 4096) mod 64;
        128 + (c / 64) mod 64; 128 + c mod 64]%N.

Definition encode (s : str) : list N := flat_map encode_cp s.

End Utf8.

(** [bytes.decode('utf-8')] *)
Definition utf8_decode (bs : list byte) : option str :=
  Utf8.decode (map Byte.to_N bs).

(** The value of each byte of [s.encode('utf-8')]. *)
Definition utf8_encode (s : str) : list N := Utf8.encode s.

Definition CR : codepoint := 13%N.
Definition LF : codepoint := 10%N.

(** Universal newlines, the translation a text-mode read applies when
    [open] is given no [newline]: each ["\r\n"] and each remaining ["\r"]
    becomes ["\n"]. *)
Fixpoint universal_newlines (s : str) : str :=
  match s with
  | [] => []
  | c :: t =>
      if (c =? CR)%N then
        LF :: match t with
              | [] => []
              | d :: t' =>
                  if (d =? LF)%N then universal_newlines t'
                  else universal_newlines t
              end
      else c :: universal_newlines t
  end.

(** [async with aiofiles.open(path, 'r', encoding='utf-8') as file:
       text = await file.read()] *)
Definition read_text (w : World) (path : str) : result str :=
  bs <- read_bytes w path ;;
  match utf8_decode bs with
  | Some s => Ok (universal_newlines s)
  | None => Raise (LibraryError "UnicodeDecodeError" (decode_message w bs))
  end.

(** ** [class DocumentProcessor] *)

(** [s.lower()]: ASCII letters by [ascii_lower], the other code points by the
    world's case table. *)
Definition lower_cp (w : World) (c : codepoint) : str :=
  if (c <? 128)%N then [ascii_lower c] else unicode_lower w c.

Definition lower (w : World) (s : str) : str := flat_map (lower_cp w) s.

Definition nl : str := [LF].
Definition dq : str := [34%N].
(** A double-quoted piece of the prompt. *)
Definition quoted (s : string) : str := dq ++ lit s ++ dq.

Definition _get_document_type (w : World) (content_type : str) : result str :=
  if contains (lit "pdf") (lower w content_type) then Ok (lit "PDF")
  else if contains (lit "word") (lower w content_type)
          || contains (lit "docx") (lower w content_type) then Ok (lit "DOCX")
  else if contains (lit "csv") (lower w content_type) then Ok (lit "CSV")
  else if contains (lit "text") (lower w content_type) then Ok (lit "TXT")
  else if contains (lit "image") (lower w content_type) then Ok (lit "IMAGE")
  else Ok (lit "UNKNOWN").

(** The loop of [_process_pdf]: [text += page.extract_text() + "\n"]. *)
Fixpoint extract_pages (pages : list (result str)) (text : str) : result str :=
  match pages with
  | [] => Ok text
  | page :: rest =>
      t <- page ;;
      extract_pages rest (text ++ t ++ nl)
  end.

Definition _process_pdf (w : World) (file_path : str) : result str :=
  try_except
    (pages <- pdf_pages w file_path ;;
     extract_pages pages [])
    (fun e => Ok (lit "Error reading PDF: " ++ exn_str e)).

Definition _process_docx (w : World) (file_path : str) : result str :=
  try_except
    (paragraphs <- docx_paragraphs w file_path ;;
     Ok (join nl paragraphs))
    (fun e => Ok (lit "Error reading DOCX: " ++ exn_str e)).

(** The lines ["- {col}: {dtype}\n"] of the report. *)
Definition dtype_lines (columns : list (str * dtype)) : str :=
  flat_map (fun c => lit "- " ++ fst c ++ lit ": " ++ dtype_name (snd c) ++ nl)
           columns.

Definition csv_report (w : World) (df : DataFrame) : str :=
  let summary :=
    lit "CSV file with " ++ str_of_nat (df_len df) ++ lit " rows and "
    ++ str_of_nat (List.length (df_columns df)) ++ lit " columns." ++ nl in
  let summary :=
    summary ++ lit "Columns: " ++ join (lit ", ") (map fst (df_columns df))
    ++ nl ++ nl in
  let summary := summary ++ lit "Column data types:" ++ nl in
  let summary := summary ++ dtype_lines (df_columns df) in
  let summary :=
    summary ++ nl ++ lit "First 5 rows:" ++ nl ++ to_string w (df_head df)
    ++ nl in
  let numeric_cols := numeric_columns df in
  if (0 <? List.length numeric_cols)%nat
  then summary ++ nl ++ lit "Numeric column statistics:" ++ nl
       ++ describe_to_string w (df_numeric df) ++ nl
  else summary.

Definition _process_csv (w : World) (file_path : str) : result str :=
  try_except
    (df <- read_csv w file_path ;;
     Ok (csv_report w df))
    (fun e => Ok (lit "Error reading CSV: " ++ exn_str e)).

Definition _process_txt (w : World) (file_path : str) : result str :=
  try_except
    (text <- read_text w file_path ;;
     Ok text)
    (fun e => Ok (lit "Error reading TXT: " ++ exn_str e)).

(** [str(img.format)] *)
Definition format_str (f : option str) : str :=
  match f with
  | Some s => s
  | None => lit "None"
  end.

(** [str(img.size)] *)
Definition size_str (sz : nat * nat) : str :=
  lit "(" ++ str_of_nat (fst sz) ++ lit ", " ++ str_of_nat (snd sz) ++ lit ")".

Definition _process_image (w : World) (file_path : str) : result str :=
  try_except
    (img <- image_open w file_path ;;
     Ok (lit "Image file: " ++ format_str (img_format img)
         ++ lit ", Size: " ++ size_str (img_size img)
         ++ lit ", Mode: " ++ img_mode img))
    (fun e => Ok (lit "Error processing image: " ++ exn_str e)).

(** The f-string [analysis_prompt]. *)
Definition analysis_prompt (content document_type : str) : str :=
  nl
  ++ lit "        Analyze the following " ++ document_type
  ++ lit " document content and provide:" ++ nl
  ++ lit "        " ++ nl
  ++ lit "        1. A concise summary (2-3 sentences)" ++ nl
  ++ lit "        2. 3-5 key insights or main points" ++ nl
  ++ lit "        3. 3-5 questions that can be answered based on this content"
  ++ nl
  ++ lit "        " ++ nl
  ++ lit "        Document content:" ++ nl
  ++ lit "        " ++ slice_to content 4000
  ++ lit "  # Limit content to avoid token limits" ++ nl
  ++ lit "        " ++ nl
  ++ lit "        Please format your response as JSON with the following structure:"
  ++ nl
  ++ lit "        {" ++ nl
  ++ lit "            " ++ quoted "summary" ++ lit ": "
  ++ quoted "Brief summary here" ++ lit "," ++ nl
  ++ lit "            " ++ quoted "key_insights" ++ lit ": ["
  ++ quoted "insight 1" ++ lit ", " ++ quoted "insight 2" ++ lit ", "
  ++ quoted "insight 3" ++ lit "]," ++ nl
  ++ lit "            " ++ quoted "questions_answered" ++ lit ": ["
  ++ quoted "question 1" ++ lit ", " ++ quoted "question 2" ++ lit ", "
  ++ quoted "question 3" ++ lit "]" ++ nl
  ++ lit "        }" ++ nl
  ++ lit "        ".

(** [response_text.find(sub)] and [response_text.rfind(sub)]: a list has no
    such method. *)
Definition content_find (c : content) (sub : str) : result Z :=
  match c with
  | ContentStr text => Ok (find sub text)
  | ContentList _ =>
      Raise (AttributeError (lit "'list' object has no attribute 'find'"))
  end.

Definition content_rfind (c : content) (sub : str) : result Z :=
  match c with
  | ContentStr text => Ok (rfind sub text)
  | ContentList _ =>
      Raise (AttributeError (lit "'list' object has no attribute 'rfind'"))
  end.

(** [response_text[i:j]]; a list is never sliced here, [find] raised first. *)
Definition content_slice (c : content) (i j : Z) : result str :=
  match c with
  | ContentStr text => Ok (slice text i j)
  | ContentList _ =>
      Raise (TypeError (lit "the JSON object must be str, bytes or bytearray, not list"))
  end.

(** The record of the [else] branch, when the delimiters are not found. *)
Definition delimiter_fallback : json :=
  JObj [ (lit "summary", JStr (lit "Document analysis completed"));
         (lit "key_insights", JArr [JStr (lit "Content extracted successfully")]);
         (lit "questions_answered",
          JArr [JStr (lit "General questions about document content")]) ].

(** The record of the [except] branch. *)
Definition exception_fallback (document_type : str) : json :=
  JObj [ (lit "summary",
          JStr (lit "Analysis completed for " ++ document_type
                ++ lit " document"));
         (lit "key_insights",
          JArr [JStr (lit "Document processed successfully");
                JStr (lit "Content extracted")]);
         (lit "questions_answered",
          JArr [JStr (lit "What is the main topic?");
                JStr (lit "What are the key points?")]) ].

(** The body of the [try] of [_analyze_content]. *)
Definition analyze_response (w : World) (prompt : str) : result json :=
  response_text <- llm_invoke w prompt ;;
  start_idx <- content_find response_text (lit "{") ;;
  r <- content_rfind response_text (lit "}") ;;
  let end_idx := (r + 1)%Z in
  if negb (start_idx =? -1)%Z && negb (end_idx =? -1)%Z then
    json_str <- content_slice response_text start_idx end_idx ;;
    json_loads w json_str
  else
    Ok delimiter_fallback.

Definition _analyze_content (w : World) (content document_type : str)
  : result json :=
  try_except
    (analyze_response w (analysis_prompt content document_type))
    (fun _ => Ok (exception_fallback document_type)).

(** [analysis[key]] *)
Definition subscript (w : World) (v : json) (key : str) : result json :=
  match v with
  | JObj items =>
      match dict_get key items with
      | Some x => Ok x
      | None => Raise (KeyError key)
      end
  | _ => Raise (TypeError (subscript_message w v))
  end.

(** The chain [if document_type == "PDF": ... else: raise ValueError(...)]. *)
Definition extract (w : World) (document_type file_path : str) : result str :=
  if str_eqb document_type (lit "PDF") then _process_pdf w file_path
  else if str_eqb document_type (lit "DOCX") then _process_docx w file_path
  else if str_eqb document_type (lit "CSV") then _process_csv w file_path
  else if str_eqb document_type (lit "TXT") then _process_txt w file_path
  else if str_eqb document_type (lit "IMAGE") then _process_image w file_path
  else Raise (ValueError (lit "Unsupported document type: " ++ document_type)).

(** The statements of the [try] of [process_file] that follow the
    assignment of [document_type]. *)
Definition process_steps (w : World) (document_type file_path : str)
  : result DocumentAnalysis :=
  extracted_text <- extract w document_type file_path ;;
  analysis <- _analyze_content w extracted_text document_type ;;
  summary <- subscript w analysis (lit "summary") ;;
  key_insights <- subscript w analysis (lit "key_insights") ;;
  questions_answered <- subscript w analysis (lit "questions_answered") ;;
  DocumentAnalysis_init w (JStr document_type) summary key_insights
                        questions_answered.

(** The body of the [try] of [process_file], with the local variable
    [document_type] as it stands when the body ends: [None] while it is
    unbound. *)
Definition process_body (w : World) (file_upload : FileUpload)
  : option str * result DocumentAnalysis :=
  let file_path := file_path file_upload in
  let content_type := content_type file_upload in
  match _get_document_type w content_type with
  | Raise e => (None, Raise e)
  | Ok document_type =>
      (Some document_type, process_steps w document_type file_path)
  end.

(** [document_type or "UNKNOWN"] in the handler. *)
Definition or_unknown (document_type : option str) : result str :=
  match document_type with
  | None =>
      Raise (UnboundLocalError
               (lit "cannot access local variable 'document_type' where it is not associated with a value"))
  | Some [] => Ok (lit "UNKNOWN")
  | Some d => Ok d
  end.

Definition process_file (w : World) (file_upload : FileUpload)
  : result DocumentAnalysis :=
  let (document_type, body) := process_body w file_upload in
  try_except body
    (fun e =>
       d <- or_unknown document_type ;;
       DocumentAnalysis_init w
         (JStr d)
         (JStr (lit "Error processing document: " ++ exn_str e))
         (JArr [JStr (lit "Document processing failed")])
         (JArr [JStr (lit "Unable to analyze due to processing error")])).

(** ** Vocabulary of the statements *)

(** The six tags of a [document_type]. *)
Definition recognized_tags : list str :=
  [lit "PDF"; lit "DOCX"; lit "CSV"; lit "TXT"; lit "IMAGE"; lit "UNKNOWN"].

(** [sub] occurs in [s]. *)
Definition occurs (sub s : str) : Prop :=
  exists pre post, s = pre ++ sub ++ post.

(** A lower-case ASCII word occurs in [s] in some mix of cases. *)
Definition occurs_any_case (word s : str) : Prop :=
  exists pre mid post,
    s = pre ++ mid ++ post
    /\ Forall (fun c => (c < 128)%N) mid
    /\ map ascii_lower mid = word.

(** The check the dispatcher makes for a word. *)
Definition has (w : World) (content_type word : str) : bool :=
  contains word (lower w content_type).

(** The words the dispatcher looks for. *)
Definition checked_words : list str :=
  [lit "pdf"; lit "word"; lit "docx"; lit "csv"; lit "text"; lit "image"].

(** None of the dispatcher's checks holds. *)
Definition unrecognized (w : World) (content_type : str) : bool :=
  forallb (fun word => negb (has w content_type word)) checked_words.

(** Some string of a JSON value contains [word]. *)
Fixpoint mentions (word : str) (v : json) : bool :=
  match v with
  | JStr s => contains word s
  | JArr xs => existsb (mentions word) xs
  | JObj items => existsb (fun kv => mentions word (snd kv)) items
  | _ => false
  end.

(** The record [process_file] builds in its handler. *)
Definition error_record (document_type : str) (e : exn) : DocumentAnalysis :=
  {| document_type := document_type;
     summary := lit "Error processing document: " ++ exn_str e;
     key_insights := [lit "Document processing failed"];
     questions_answered := [lit "Unable to analyze due to processing error"] |}.

(** The keys [process_file] reads, in the order it reads them. *)
Definition expected_keys : list str :=
  [lit "summary"; lit "key_insights"; lit "questions_answered"].

(** The first expected key a [dict] lacks. *)
Definition first_missing (items : list (str * json)) : option str :=
  List.find (fun k => match dict_get k items with
                      | Some _ => false
                      | None => true
                      end) expected_keys.

(** ** Sample worlds *)

Fixpoint lookup {A : Type} (k : str) (table : list (str * A)) : option A :=
  match table with
  | [] => None
  | (k', v) :: rest => if str_eqb k k' then Some v else lookup k rest
  end.

Definition file_not_found : exn :=
  LibraryError "FileNotFoundError" (lit "[Errno 2] No such file or directory").

Definition json_decode_error : exn :=
  LibraryError "JSONDecodeError"
               (lit "Expecting value: line 1 column 1 (char 0)").

Definition or_raise {A : Type} (e : exn) (o : option A) : result A :=
  match o with
  | Some v => Ok v
  | None => Raise e
  end.

(** A world given by the reply of the model, the texts [json.loads] parses
    (it refuses every other text), and the files, PDF documents and CSV
    tables on disk. Nothing is coerced to [str], as in pydantic 2. *)
Definition sample_world
    (reply : result content)
    (parses : list (str * json))
    (files : list (str * list byte))
    (pdfs : list (str * list (result str)))
    (frames : list (str * DataFrame)) : World :=
  {| unicode_lower := fun c => [c];
     subscript_message := fun _ => lit "object is not subscriptable";
     decode_message := fun _ => lit "'utf-8' codec can't decode bytes";
     llm_invoke := fun _ => reply;
     json_loads := fun text => or_raise json_decode_error (lookup text parses);
     coerce_to_str := fun _ => None;
     validation_message := fun _ => lit "validation error for DocumentAnalysis";
     read_bytes := fun path => or_raise file_not_found (lookup path files);
     pdf_pages := fun path => or_raise file_not_found (lookup path pdfs);
     docx_paragraphs := fun _ => Raise file_not_found;
     read_csv := fun path => or_raise file_not_found (lookup path frames);
     to_string := fun df => join (lit "  ") (map fst (df_columns df));
     describe_to_string :=
       fun df => lit "count  " ++ join (lit "  ") (map fst (df_columns df));
     image_open := fun _ => Raise file_not_found |}.

(** A world with nothing on disk and a model that is out of reach. *)
Definition empty_world : World :=
  sample_world (Raise (LibraryError "ConnectionError" (lit "unreachable")))
               [] [] [] [].

Definition upload (content_type file_path : string) : FileUpload :=
  {| filename := lit file_path;
     content_type := lit content_type;
     file_size := 0;
     file_path := lit file_path |}.

(** A model that answers in prose, without any brace. *)
Definition prose_world : World :=
  sample_world (Ok (ContentStr (lit "no json here"))) [] [] [] [].

(** A model that opens a brace and never closes it. *)
Definition unclosed_world : World :=
  sample_world (Ok (ContentStr (lit "Result: {summary"))) [] [] [] [].

(** A model that answers with the three fields, wrapped in prose. *)
Definition answer_text : str :=
  lit "{" ++ quoted "summary" ++ lit ": " ++ quoted "S" ++ lit ", "
  ++ quoted "key_insights" ++ lit ": [" ++ quoted "K" ++ lit "], "
  ++ quoted "questions_answered" ++ lit ": [" ++ quoted "Q" ++ lit "]}".

Definition answer_items : list (str * json) :=
  [ (lit "summary", JStr (lit "S"));
    (lit "key_insights", JArr [JStr (lit "K")]);
    (lit "questions_answered", JArr [JStr (lit "Q")]) ].

Definition answer_world : World :=
  sample_world (Ok (ContentStr (lit "Here it is: " ++ answer_text ++ lit " Done.")))
               [(answer_text, JObj answer_items)] [] [] [].

(** A model that answers with an empty object. *)
Definition empty_object_world : World :=
  sample_world (Ok (ContentStr (lit "{}"))) [(lit "{}", JObj [])] [] [] [].

(** A PDF of three pages, the second without any text. *)
Definition three_pages : list str := [lit "first"; []; lit "third"].

Definition pdf_world : World :=
  sample_world (Ok (ContentStr (lit "no json here")))
               [] [] [(lit "doc.pdf", map Ok three_pages)] [].

(** A text file with a Windows line ending: [a], CR, LF, [b]. *)
Definition crlf_bytes : list byte := [x61; x0d; x0a; x62].

Definition crlf_world : World :=
  sample_world (Ok (ContentStr (lit "no json here")))
               [] [(lit "notes.txt", crlf_bytes)] [] [].

Definition int64 : dtype :=
  {| dtype_name := lit "int64"; dtype_is_number := true |}.
Definition object : dtype :=
  {| dtype_name := lit "object"; dtype_is_number := false |}.

(** The table of [name,age] with two rows. *)
Definition people : DataFrame :=
  {| df_columns := [(lit "name", object); (lit "age", int64)];
     df_rows := [[CellStr (lit "ann"); CellInt 31];
                 [CellStr (lit "bob"); CellInt 27]] |}.

Definition csv_world : World :=
  sample_world (Ok (ContentStr (lit "no json here")))
               [] [] [] [(lit "people.csv", people)].


(** ** [save_uploaded_file] *)

(** [s.endswith(suf)] *)
Definition endswith (suf s : str) : bool := startswith (rev suf) (rev s).

(** [os.path.join(a, b)] of [posixpath]. *)
Definition posix_join (a b : str) : str :=
  if startswith (lit "/") b then b
  else if match a with [] => true | _ => endswith (lit "/") a end then a ++ b
  else a ++ lit "/" ++ b.

(** A lower-case hexadecimal digit. *)
Definition hex_digit (d : N) : codepoint :=
  if (d <? 10)%N then (48 + d)%N else (87 + d)%N.

(** ['%0kx' % n] for [n] below [16^k]. *)
Fixpoint hex_fixed (k : nat) (n : N) : str :=
  match k with
  | O => []
  | S k' => hex_fixed k' (n / 16) ++ [hex_digit (n mod 16)]
  end.

(** [str(u)] of a [uuid.UUID] whose 128-bit integer is [u]: the 32
    hexadecimal digits in the groups 8-4-4-4-12. *)
Definition uuid_str (u : N) : str :=
  let hex := hex_fixed 32 u in
  slice hex 0 8 ++ lit "-" ++ slice hex 8 12 ++ lit "-"
  ++ slice hex 12 16 ++ lit "-" ++ slice hex 16 20 ++ lit "-"
  ++ slice hex 20 (Z.of_nat (List.length hex)).

(** What the operating system answers to the persister: the error of
    [os.makedirs(path, exist_ok=True)] and the error of opening a path for
    writing, [None] when the call succeeds. *)
Record Os : Type := {
  makedirs_error : str -> option exn;
  open_wb_error : str -> option exn
}.

(** The files written so far, the latest first. *)
Definition Disk : Type := list (str * list byte).

(** [f"{uuid.uuid4()}_{filename}"], for the value [u] that [uuid4] draws. *)
Definition unique_filename (u : N) (filename : str) : str :=
  uuid_str u ++ lit "_" ++ filename.

(** [save_uploaded_file(file_data, filename)], on a disk and with the value
    [u] drawn by [uuid.uuid4()]: the disk after the call and the path
    returned. Nothing is caught: an error of the system is raised. *)
Definition save_uploaded_file (os : Os) (disk : Disk) (u : N)
    (file_data : list byte) (filename : str) : result (Disk * str) :=
  let uploads_dir := lit "uploads" in
  match makedirs_error os uploads_dir with
  | Some e => Raise e
  | None =>
      let file_path := posix_join uploads_dir (unique_filename u filename) in
      match open_wb_error os file_path with
      | Some e => Raise e
      | None => Ok ((file_path, file_data) :: disk, file_path)
      end
  end.

(** The world [w] after the files of [disk] were written: a path written on
    [disk] reads as its latest contents. *)
Definition world_on (w : World) (disk : Disk) : World :=
  {| unicode_lower := unicode_lower w;
     subscript_message := subscript_message w;
     decode_message := decode_message w;
     llm_invoke := llm_invoke w;
     json_loads := json_loads w;
     coerce_to_str := coerce_to_str w;
     validation_message := validation_message w;
     read_bytes := fun path =>
                     match lookup path disk with
                     | Some bs => Ok bs
                     | None => read_bytes w path
                     end;
     pdf_pages := pdf_pages w;
     docx_paragraphs := docx_paragraphs w;
     read_csv := read_csv w;
     to_string := to_string w;
     describe_to_string := describe_to_string w;
     image_open := image_open w |}.

(** A system on which every call succeeds. *)
Definition willing_os : Os :=
  {| makedirs_error := fun _ => None; open_wb_error := fun _ => None |}.

(** ** More vocabulary *)

(** The tags that have an extractor. *)
Definition extractable_tags : list str :=
  [lit "PDF"; lit "DOCX"; lit "CSV"; lit "TXT"; lit "IMAGE"].

(** A world whose model gives the same reply to every prompt. *)
Definition replies (w : World) (reply : result content) : Prop :=
  forall prompt, llm_invoke w prompt = reply.


(** A JSON array. *)
Definition is_array (v : json) : bool :=
  match v with
  | JArr _ => true
  | _ => false
  end.

(** A model that gives one string where a list of insights is expected. *)
Definition flat_insights_text : str :=
  lit "{" ++ quoted "summary" ++ lit ": " ++ quoted "S" ++ lit ", "
  ++ quoted "key_insights" ++ lit ": " ++ quoted "K" ++ lit ", "
  ++ quoted "questions_answered" ++ lit ": []}".

Definition flat_insights_items : list (str * json) :=
  [ (lit "summary", JStr (lit "S"));
    (lit "key_insights", JStr (lit "K"));
    (lit "questions_answered", JArr []) ].

Definition flat_insights_world : World :=
  sample_world (Ok (ContentStr flat_insights_text))
               [(flat_insights_text, JObj flat_insights_items)] [] [] [].


(** A model that closes a brace before it opens one. *)
Definition reversed_world : World :=
  sample_world (Ok (ContentStr (lit "} and then {"))) [] [] [] [].

(** A table without a numeric column. *)
Definition names_only : DataFrame :=
  {| df_columns := [(lit "name", object)];
     df_rows := [[CellStr (lit "ann")]; [CellStr (lit "bob")]] |}.

Definition names_world : World :=
  sample_world (Ok (ContentStr (lit "no json here")))
               [] [] [] [(lit "names.csv", names_only)].


(** The bytes of the text [hello]. *)
Definition hello_bytes : list byte := [x68; x65; x6c; x6c; x6f].

(** * Properties *)

(** ** Sample runs *)

Example find_first_open_brace :
  find (lit "{") (lit "ab{c}d}") = 2%Z /\ find (lit "{") (lit "abc") = (-1)%Z.
Proof. split; reflexivity. Qed.

Example rfind_last_close_brace :
  rfind (lit "}") (lit "ab{c}d}") = 6%Z /\ rfind (lit "}") (lit "ab{c") = (-1)%Z.
Proof. split; reflexivity. Qed.

Example slice_between_braces :
  slice (lit "ab{c}d}") 2 7 = lit "{c}d}" /\ slice (lit "ab{c") 2 0 = [].
Proof. split; reflexivity. Qed.

Example dispatch_upper_case_pdf :
  _get_document_type empty_world (lit "Application/PDF") = Ok (lit "PDF").
Proof. reflexivity. Qed.

Example dispatch_wordprocessingml :
  _get_document_type empty_world
    (lit "application/vnd.openxmlformats-officedocument.wordprocessingml.document")
  = Ok (lit "DOCX").
Proof. reflexivity. Qed.

Example dispatch_text_csv :
  _get_document_type empty_world (lit "text/csv") = Ok (lit "CSV").
Proof. reflexivity. Qed.

Example dispatch_image_text :
  _get_document_type empty_world (lit "image/x-text") = Ok (lit "TXT").
Proof. reflexivity. Qed.

Example dispatch_zip :
  _get_document_type empty_world (lit "application/zip") = Ok (lit "UNKNOWN").
Proof. reflexivity. Qed.

Example pdf_three_pages :
  _process_pdf pdf_world (lit "doc.pdf")
  = Ok (lit "first" ++ nl ++ nl ++ lit "third" ++ nl).
Proof. reflexivity. Qed.

Example pdf_missing_file :
  _process_pdf pdf_world (lit "other.pdf")
  = Ok (lit "Error reading PDF: [Errno 2] No such file or directory").
Proof. reflexivity. Qed.

Example analyze_prose_reply :
  _analyze_content prose_world (lit "some text") (lit "PDF")
  = Ok delimiter_fallback.
Proof. reflexivity. Qed.

Example analyze_unreachable_model :
  _analyze_content empty_world (lit "some text") (lit "PDF")
  = Ok (exception_fallback (lit "PDF")).
Proof. reflexivity. Qed.

Example process_missing_text_file :
  process_file prose_world (upload "text/plain" "gone.txt")
  = Ok {| document_type := lit "TXT";
          summary := lit "Document analysis completed";
          key_insights := [lit "Content extracted successfully"];
          questions_answered := [lit "General questions about document content"] |}.
Proof. reflexivity. Qed.

Example process_answered :
  process_file answer_world (upload "text/plain" "gone.txt")
  = Ok {| document_type := lit "TXT";
          summary := lit "S";
          key_insights := [lit "K"];
          questions_answered := [lit "Q"] |}.
Proof. reflexivity. Qed.

(** ** Strings *)

Lemma startswith_app (p s : str) : startswith p (p ++ s) = true.
Proof.
  induction p as [|a p IH]; simpl.
  - reflexivity.
  - now rewrite N.eqb_refl.
Qed.

Lemma contains_here (sub s : str) :
  startswith sub s = true -> contains sub s = true.
Proof. destruct s; simpl; intros ->; reflexivity. Qed.

Lemma contains_app (sub pre post : str) :
  contains sub (pre ++ sub ++ post) = true.
Proof.
  induction pre as [|c pre IH]; simpl.
  - apply contains_here, startswith_app.
  - rewrite IH. apply orb_true_r.
Qed.

Lemma lower_app (w : World) (a b : str) :
  lower w (a ++ b) = lower w a ++ lower w b.
Proof. apply flat_map_app. Qed.

Lemma lower_ascii (w : World) (s : str) :
  Forall (fun c => (c < 128)%N) s -> lower w s = map ascii_lower s.
Proof.
  induction 1 as [|c s Hc _ IH]; simpl.
  - reflexivity.
  - unfold lower_cp. apply N.ltb_lt in Hc. rewrite Hc. simpl.
    f_equal. exact IH.
Qed.

Lemma occurs_any_case_has (w : World) (word ct : str) :
  occurs_any_case word ct -> has w ct word = true.
Proof.
  intros (pre & mid & post & -> & Hascii & Hword).
  unfold has. rewrite !lower_app, (lower_ascii w mid Hascii), Hword.
  apply contains_app.
Qed.

Lemma startswith_prefix (p s : str) :
  startswith p s = true -> exists post, s = p ++ post.
Proof.
  revert s. induction p as [|a p IH]; intros s H.
  - now exists s.
  - destruct s as [|b s]; [discriminate|]. simpl in H.
    apply andb_true_iff in H. destruct H as [Hab Hrest].
    apply N.eqb_eq in Hab. subst b.
    destruct (IH s Hrest) as (post & ->). now exists post.
Qed.

Lemma contains_occurs (sub s : str) :
  contains sub s = true -> occurs sub s.
Proof.
  induction s as [|c s IH]; simpl; intros H.
  - rewrite orb_false_r in H. destruct (startswith_prefix _ _ H) as (post & E).
    exists [], post. exact E.
  - apply orb_true_iff in H. destruct H as [H|H].
    + destruct (startswith_prefix _ _ H) as (post & E).
      exists [], post. exact E.
    + destruct (IH H) as (pre & post & ->). now exists (c :: pre), post.
Qed.

(** On an ASCII content type the check of a word holds only when the word
    occurs in it in some mix of cases. *)
Lemma has_occurs_any_case (w : World) (word ct : str) :
  Forall (fun c => (c < 128)%N) ct ->
  has w ct word = true -> occurs_any_case word ct.
Proof.
  intros Hascii H. unfold has in H. rewrite (lower_ascii w ct Hascii) in H.
  destruct (contains_occurs _ _ H) as (pre' & post' & E).
  apply map_eq_app in E. destruct E as (pre & rest & -> & _ & E).
  apply map_eq_app in E. destruct E as (mid & post & -> & Hmid & _).
  exists pre, mid, post. split; [reflexivity|]. split; [|exact Hmid].
  apply Forall_app in Hascii. destruct Hascii as [_ Hascii].
  apply Forall_app in Hascii. now destruct Hascii.
Qed.

(** Two distinct literals are told apart by evaluation. *)
Ltac lit_neq :=
  match goal with
  | H : Ok _ = Ok _ |- _ => vm_compute in H; discriminate H
  | H : _ = _ :> str |- _ => vm_compute in H; discriminate H
  end.

(** ** The dispatcher *)

Lemma get_document_type_total (w : World) (ct : str) :
  exists tag, _get_document_type w ct = Ok tag /\ In tag recognized_tags.
Proof.
  unfold _get_document_type, recognized_tags.
  repeat match goal with
         | |- context [if ?b then _ else _] => destruct b
         end;
    eexists; (split; [reflexivity|]); simpl; tauto.
Qed.

Lemma get_document_type_unknown (w : World) (ct : str) :
  unrecognized w ct = true -> _get_document_type w ct = Ok (lit "UNKNOWN").
Proof.
  unfold unrecognized, checked_words, has, _get_document_type.
  cbn [forallb]. rewrite !andb_true_iff, !negb_true_iff.
  intros (-> & -> & -> & -> & -> & -> & _). reflexivity.
Qed.

(** C3. [_get_document_type] returns a tag for every content type, never an
    error; the tag is fixed by the checks [word in content_type.lower()] taken
    in the order pdf, word or docx, csv, text, image, with UNKNOWN when none
    holds; a word written in any mix of cases passes its check (and on an
    ASCII content type nothing else does), so a content type with "pdf" in
    any case is a PDF, and csv wins over text, which wins over image. *)
Theorem get_document_type_priority (w : World) (ct : str) :
  (exists tag, _get_document_type w ct = Ok tag /\ In tag recognized_tags)
  /\ (forall word, occurs_any_case word ct -> has w ct word = true)
  /\ (Forall (fun c => (c < 128)%N) ct ->
      forall word, has w ct word = true -> occurs_any_case word ct)
  /\ (occurs_any_case (lit "pdf") ct ->
       _get_document_type w ct = Ok (lit "PDF"))
  /\ (_get_document_type w ct = Ok (lit "PDF") <->
       has w ct (lit "pdf") = true)
  /\ (_get_document_type w ct = Ok (lit "DOCX") <->
       has w ct (lit "pdf") = false
       /\ (has w ct (lit "word") = true \/ has w ct (lit "docx") = true))
  /\ (_get_document_type w ct = Ok (lit "CSV") <->
       has w ct (lit "pdf") = false /\ has w ct (lit "word") = false
       /\ has w ct (lit "docx") = false /\ has w ct (lit "csv") = true)
  /\ (_get_document_type w ct = Ok (lit "TXT") <->
       has w ct (lit "pdf") = false /\ has w ct (lit "word") = false
       /\ has w ct (lit "docx") = false /\ has w ct (lit "csv") = false
       /\ has w ct (lit "text") = true)
  /\ (_get_document_type w ct = Ok (lit "IMAGE") <->
       has w ct (lit "pdf") = false /\ has w ct (lit "word") = false
       /\ has w ct (lit "docx") = false /\ has w ct (lit "csv") = false
       /\ has w ct (lit "text") = false /\ has w ct (lit "image") = true)
  /\ (_get_document_type w ct = Ok (lit "UNKNOWN") <->
       has w ct (lit "pdf") = false /\ has w ct (lit "word") = false
       /\ has w ct (lit "docx") = false /\ has w ct (lit "csv") = false
       /\ has w ct (lit "text") = false /\ has w ct (lit "image") = false).
Proof.
  split; [|split; [|split; [|split]]].
  - apply get_document_type_total.
  - intros word. apply occurs_any_case_has.
  - intros Hascii word. now apply has_occurs_any_case.
  - intros H. apply (occurs_any_case_has w) in H.
    unfold has in H. unfold _get_document_type. now rewrite H.
  - unfold _get_document_type, has.
    destruct (contains (lit "pdf") (lower w ct));
      destruct (contains (lit "word") (lower w ct));
      destruct (contains (lit "docx") (lower w ct));
      destruct (contains (lit "csv") (lower w ct));
      destruct (contains (lit "text") (lower w ct));
      destruct (contains (lit "image") (lower w ct));
      cbn [orb];
      repeat split; intros;
      repeat match goal with
             | H : _ /\ _ |- _ => destruct H
             | H : _ \/ _ |- _ => destruct H
             end;
      try reflexivity; try discriminate; try lit_neq; auto.
Qed.

(** ** The top level *)

Lemma DocumentAnalysis_init_error (w : World) (d : str) (e : exn) :
  DocumentAnalysis_init w
    (JStr d)
    (JStr (lit "Error processing document: " ++ exn_str e))
    (JArr [JStr (lit "Document processing failed")])
    (JArr [JStr (lit "Unable to analyze due to processing error")])
  = Ok (error_record d e).
Proof. reflexivity. Qed.

(** Once the type is classified, [process_file] is its remaining steps, with
    every exception turned into the error record. *)
Lemma process_file_classified (w : World) (fu : FileUpload) (tag : str) :
  _get_document_type w (content_type fu) = Ok tag ->
  tag <> [] ->
  process_file w fu =
  match process_steps w tag (file_path fu) with
  | Ok da => Ok da
  | Raise e => Ok (error_record tag e)
  end.
Proof.
  intros Htag Hne. unfold process_file, process_body. rewrite Htag.
  unfold try_except. destruct (process_steps w tag (file_path fu)) as [da|e].
  - reflexivity.
  - destruct tag as [|c tag]; [contradiction|].
    cbn [or_unknown bind]. apply DocumentAnalysis_init_error.
Qed.

Lemma process_steps_document_type (w : World) (tag path : str)
    (da : DocumentAnalysis) :
  process_steps w tag path = Ok da -> document_type da = tag.
Proof.
  unfold process_steps, bind, DocumentAnalysis_init. cbn [validate_str].
  repeat match goal with
         | |- context [match ?x with _ => _ end] => destruct x
         end;
    intros H; inversion H; reflexivity.
Qed.

Lemma recognized_tag_nonempty (tag : str) :
  In tag recognized_tags -> tag <> [].
Proof.
  unfold recognized_tags. simpl.
  intros H; repeat destruct H as [H|H]; try contradiction;
    subst tag; discriminate.
Qed.

(** C1. For every upload and every world (whatever the file system, the
    parsing libraries and the model do), [process_file] raises nothing: it
    returns a [DocumentAnalysis], and the [document_type] of that record is
    one of the six tags. *)
Theorem process_file_never_raises (w : World) (fu : FileUpload) :
  exists da,
    process_file w fu = Ok da /\ In (document_type da) recognized_tags.
Proof.
  destruct (get_document_type_total w (content_type fu))
    as (tag & Htag & Hin).
  rewrite (process_file_classified w fu tag Htag
             (recognized_tag_nonempty tag Hin)).
  destruct (process_steps w tag (file_path fu)) as [da|e] eqn:Hsteps.
  - exists da. split; [reflexivity|].
    now rewrite (process_steps_document_type _ _ _ _ Hsteps).
  - exists (error_record tag e). split; [reflexivity|exact Hin].
Qed.

(** C4. When none of the five checks recognises the content type,
    [_get_document_type] returns UNKNOWN and [process_file] returns the
    record with [document_type] UNKNOWN, a summary that embeds the text of
    the [ValueError] raised for the unsupported type, one insight saying
    that processing failed and one question saying that analysis was not
    possible. *)
Theorem process_file_unrecognized (w : World) (fu : FileUpload) :
  unrecognized w (content_type fu) = true ->
  _get_document_type w (content_type fu) = Ok (lit "UNKNOWN")
  /\ process_file w fu =
     Ok {| document_type := lit "UNKNOWN";
           summary :=
             lit "Error processing document: "
             ++ exn_str (ValueError (lit "Unsupported document type: UNKNOWN"));
           key_insights := [lit "Document processing failed"];
           questions_answered :=
             [lit "Unable to analyze due to processing error"] |}.
Proof.
  intros Hun. pose proof (get_document_type_unknown w _ Hun) as Htag.
  split; [exact Htag|].
  rewrite (process_file_classified w fu (lit "UNKNOWN") Htag)
    by discriminate.
  reflexivity.
Qed.

Lemma process_file_unrecognized_witness :
  unrecognized empty_world (content_type (upload "application/zip" "a.zip"))
  = true
  /\ exists da,
      process_file empty_world (upload "application/zip" "a.zip") = Ok da
      /\ document_type da = lit "UNKNOWN".
Proof.
  split; [reflexivity|].
  destruct (process_file_unrecognized empty_world
              (upload "application/zip" "a.zip") eq_refl) as [_ H].
  eexists. split; [exact H|reflexivity].
Defined.

(** ** The analyzer *)

Lemma find_from_absent (sub s : str) (i : Z) :
  contains sub s = false -> find_from sub s i = (-1)%Z.
Proof.
  revert i. induction s as [|c s IH]; simpl; intros i H;
    apply orb_false_iff in H; destruct H as [H1 H2]; rewrite H1.
  - reflexivity.
  - now apply IH.
Qed.

Lemma find_from_present (sub s : str) (i : Z) :
  contains sub s = true ->
  (i <= find_from sub s i <= i + Z.of_nat (List.length s))%Z.
Proof.
  revert i. induction s as [|c s IH]; intros i H; simpl in *.
  - rewrite orb_false_r in H. rewrite H. lia.
  - destruct (startswith sub (c :: s)); [lia|].
    simpl in H. specialize (IH (i + 1)%Z H). lia.
Qed.

Lemma rfind_from_absent (sub s : str) (i best : Z) :
  contains sub s = false -> rfind_from sub s i best = best.
Proof.
  revert i best. induction s as [|c s IH]; simpl; intros i best H;
    apply orb_false_iff in H; destruct H as [H1 H2]; rewrite H1.
  - reflexivity.
  - now apply IH.
Qed.

Lemma rfind_from_lower_bound (sub s : str) (i best : Z) :
  (-1 <= best)%Z -> (0 <= i)%Z -> (-1 <= rfind_from sub s i best)%Z.
Proof.
  revert i best. induction s as [|c s IH]; simpl; intros i best Hb Hi.
  - destruct (startswith sub []); lia.
  - apply IH; [destruct (startswith sub (c :: s)); lia | lia].
Qed.

Lemma rfind_lower_bound (sub s : str) : (-1 <= rfind sub s)%Z.
Proof. apply rfind_from_lower_bound; lia. Qed.

(** [s[i:0]] is empty for a non-negative [i]. *)
Lemma slice_to_zero (s : str) (i : Z) : (0 <= i)%Z -> slice s i 0 = [].
Proof.
  intros Hi. unfold slice, clamp_index.
  destruct (i <? 0)%Z eqn:E; [apply Z.ltb_lt in E; lia|].
  change (0 <? 0)%Z with false. cbv iota.
  replace (Z.to_nat (Z.min 0 (Z.of_nat (List.length s))
                     - Z.min i (Z.of_nat (List.length s)))) with 0%nat by lia.
  reflexivity.
Qed.

(** On a text reply the [try] body parses the slice when the text has a
    ["{"], and takes the [else] branch otherwise: [end_idx] is at least [0],
    so its test never fails. *)
Lemma analyze_response_text (w : World) (prompt text : str) :
  llm_invoke w prompt = Ok (ContentStr text) ->
  analyze_response w prompt =
  if contains (lit "{") text
  then json_loads w (slice text (find (lit "{") text)
                           (rfind (lit "}") text + 1))
  else Ok delimiter_fallback.
Proof.
  intros Hreply. unfold analyze_response. rewrite Hreply.
  cbn [bind content_find content_rfind content_slice].
  pose proof (rfind_lower_bound (lit "}") text) as Hr.
  destruct (contains (lit "{") text) eqn:Hopen.
  - pose proof (find_from_present _ _ 0%Z Hopen) as Hf. fold (find (lit "{") text) in Hf.
    replace (find (lit "{") text =? -1)%Z with false
      by (symmetry; apply Z.eqb_neq; lia).
    replace (rfind (lit "}") text + 1 =? -1)%Z with false
      by (symmetry; apply Z.eqb_neq; lia).
    reflexivity.
  - unfold find at 1. rewrite (find_from_absent _ _ 0%Z Hopen).
    reflexivity.
Qed.

Lemma analyze_content_raise (w : World) (content dt : str) (e : exn) :
  analyze_response w (analysis_prompt content dt) = Raise e ->
  _analyze_content w content dt = Ok (exception_fallback dt).
Proof. unfold _analyze_content. now intros ->. Qed.

Lemma analyze_content_ok (w : World) (content dt : str) (v : json) :
  analyze_response w (analysis_prompt content dt) = Ok v ->
  _analyze_content w content dt = Ok v.
Proof. unfold _analyze_content. now intros ->. Qed.

Lemma analyze_content_total (w : World) (content dt : str) :
  exists v, _analyze_content w content dt = Ok v.
Proof.
  unfold _analyze_content.
  destruct (analyze_response w (analysis_prompt content dt)); simpl; eauto.
Qed.

(** A text with a ["{"] and no ["}"]: the slice is empty, and the analyzer
    answers what it answers when [json.loads] refuses the empty text. *)
Lemma analyze_content_unclosed (w : World) (content dt text : str) (e : exn) :
  llm_invoke w (analysis_prompt content dt) = Ok (ContentStr text) ->
  contains (lit "{") text = true ->
  contains (lit "}") text = false ->
  json_loads w [] = Raise e ->
  _analyze_content w content dt = Ok (exception_fallback dt).
Proof.
  intros Hreply Hopen Hclose Hempty.
  apply analyze_content_raise with (e := e).
  rewrite (analyze_response_text _ _ _ Hreply), Hopen.
  unfold rfind. rewrite (rfind_from_absent _ _ _ _ Hclose).
  change (-1 + 1)%Z with 0%Z.
  rewrite slice_to_zero; [exact Hempty|].
  pose proof (find_from_present _ _ 0%Z Hopen). unfold find. lia.
Qed.

Lemma mentions_exception_fallback (dt : str) :
  mentions dt (exception_fallback dt) = true.
Proof.
  cbn [mentions exception_fallback existsb snd].
  now rewrite contains_app.
Qed.

Lemma Ok_inj {A : Type} (a b : A) : Ok a = Ok b -> a = b.
Proof. intros H. now injection H. Qed.

Lemma fallbacks_differ (dt : str) : exception_fallback dt <> delimiter_fallback.
Proof.
  unfold exception_fallback, delimiter_fallback. intros H.
  injection H as H. cbn in H. discriminate H.
Qed.

(** C2, as the specification words it, fails: with no ["{"] in the reply the
    record returned for a PDF has no string that mentions PDF. *)
Lemma analyze_content_fallback_counterexample :
  ~ (forall (w : World) (content dt text : str),
        llm_invoke w (analysis_prompt content dt) = Ok (ContentStr text) ->
        contains (lit "{") text = false \/ contains (lit "}") text = false ->
        exists v,
          _analyze_content w content dt = Ok v /\ mentions dt v = true).
Proof.
  intros H.
  destruct (H prose_world [] (lit "PDF") (lit "no json here") eq_refl
              (or_introl eq_refl)) as (v & Hv & Hm).
  vm_compute in Hv. inversion Hv; subst v.
  vm_compute in Hm. discriminate Hm.
Qed.

(** C2, amended. [_analyze_content] never raises. When anything in the
    [try] raises, it returns the record of the [except] branch, whose summary
    names the document type; this is also what a reply with a ["{"] and no
    ["}"] gets, [json.loads] refusing the empty slice. When the reply has no
    ["{"], it returns the record of the [else] branch, a fixed record that
    does not depend on the document type. *)
Theorem analyze_content_fallback (w : World) (content dt : str) :
  (exists v, _analyze_content w content dt = Ok v)
  /\ (forall e,
        analyze_response w (analysis_prompt content dt) = Raise e ->
        _analyze_content w content dt = Ok (exception_fallback dt))
  /\ (forall text e,
        llm_invoke w (analysis_prompt content dt) = Ok (ContentStr text) ->
        contains (lit "{") text = true ->
        contains (lit "}") text = false ->
        json_loads w [] = Raise e ->
        _analyze_content w content dt = Ok (exception_fallback dt))
  /\ (forall text,
        llm_invoke w (analysis_prompt content dt) = Ok (ContentStr text) ->
        contains (lit "{") text = false ->
        _analyze_content w content dt = Ok delimiter_fallback)
  /\ mentions dt (exception_fallback dt) = true.
Proof.
  repeat split.
  - apply analyze_content_total.
  - apply analyze_content_raise.
  - intros text e. apply analyze_content_unclosed.
  - intros text Hreply Hopen. apply analyze_content_ok.
    now rewrite (analyze_response_text _ _ _ Hreply), Hopen.
  - apply mentions_exception_fallback.
Qed.

(** C10. A reply with a ["{"] and no ["}"] does not reach the [else] branch:
    [rfind] gives [-1], [end_idx] is [0] and passes the test, the slice is
    empty, [json.loads] raises on it, and the analyzer returns the record of
    the [except] branch, which is not the record of the [else] branch. *)
Theorem analyze_content_unclosed_brace (w : World) (content dt text : str)
    (e : exn) :
  llm_invoke w (analysis_prompt content dt) = Ok (ContentStr text) ->
  contains (lit "{") text = true ->
  contains (lit "}") text = false ->
  json_loads w [] = Raise e ->
  (rfind (lit "}") text + 1 = 0)%Z
  /\ slice text (find (lit "{") text) (rfind (lit "}") text + 1) = []
  /\ analyze_response w (analysis_prompt content dt) = Raise e
  /\ _analyze_content w content dt =
     Ok (JObj [ (lit "summary",
                 JStr (lit "Analysis completed for " ++ dt ++ lit " document"));
                (lit "key_insights",
                 JArr [JStr (lit "Document processed successfully");
                       JStr (lit "Content extracted")]);
                (lit "questions_answered",
                 JArr [JStr (lit "What is the main topic?");
                       JStr (lit "What are the key points?")]) ])
  /\ _analyze_content w content dt <> Ok delimiter_fallback.
Proof.
  intros Hreply Hopen Hclose Hempty.
  assert (Hr : (rfind (lit "}") text + 1 = 0)%Z).
  { unfold rfind. now rewrite (rfind_from_absent _ _ _ _ Hclose). }
  assert (Hs : slice text (find (lit "{") text) (rfind (lit "}") text + 1) = []).
  { rewrite Hr. apply slice_to_zero.
    pose proof (find_from_present _ _ 0%Z Hopen). unfold find. lia. }
  pose proof (analyze_content_unclosed _ _ _ _ _ Hreply Hopen Hclose Hempty)
    as Hres.
  repeat split; try assumption.
  - now rewrite (analyze_response_text _ _ _ Hreply), Hopen, Hs.
  - rewrite Hres. intros H. exact (fallbacks_differ dt (Ok_inj _ _ H)).
Qed.

Lemma analyze_content_unclosed_brace_witness :
  _analyze_content unclosed_world (lit "some text") (lit "TXT")
  = Ok (exception_fallback (lit "TXT")).
Proof.
  exact (proj1 (proj2 (proj2 (proj2
    (analyze_content_unclosed_brace unclosed_world (lit "some text")
       (lit "TXT") (lit "Result: {summary") json_decode_error
       eq_refl eq_refl eq_refl eq_refl))))).
Defined.

(** C5. When the text between the first ["{"] and the last ["}"] of the
    reply parses as an object that has the three keys, [_analyze_content]
    returns that object as it is, and reading the three keys of what it
    returns gives the parsed values. *)
Theorem analyze_content_parsed (w : World) (content dt text : str)
    (items : list (str * json)) (s k q : json) :
  llm_invoke w (analysis_prompt content dt) = Ok (ContentStr text) ->
  contains (lit "{") text = true ->
  json_loads w (slice text (find (lit "{") text) (rfind (lit "}") text + 1))
  = Ok (JObj items) ->
  dict_get (lit "summary") items = Some s ->
  dict_get (lit "key_insights") items = Some k ->
  dict_get (lit "questions_answered") items = Some q ->
  exists analysis,
    _analyze_content w content dt = Ok analysis
    /\ analysis = JObj items
    /\ subscript w analysis (lit "summary") = Ok s
    /\ subscript w analysis (lit "key_insights") = Ok k
    /\ subscript w analysis (lit "questions_answered") = Ok q.
Proof.
  intros Hreply Hopen Hparse Hs Hk Hq.
  exists (JObj items). split; [|split; [reflexivity|]].
  - apply analyze_content_ok.
    now rewrite (analyze_response_text _ _ _ Hreply), Hopen.
  - unfold subscript. now rewrite Hs, Hk, Hq.
Qed.

Lemma analyze_content_parsed_witness :
  exists analysis,
    _analyze_content answer_world (lit "some text") (lit "TXT") = Ok analysis
    /\ analysis = JObj answer_items
    /\ subscript answer_world analysis (lit "summary") = Ok (JStr (lit "S"))
    /\ subscript answer_world analysis (lit "key_insights")
       = Ok (JArr [JStr (lit "K")])
    /\ subscript answer_world analysis (lit "questions_answered")
       = Ok (JArr [JStr (lit "Q")]).
Proof.
  apply (analyze_content_parsed answer_world (lit "some text") (lit "TXT")
           (lit "Here it is: " ++ answer_text ++ lit " Done."));
    reflexivity.
Defined.

(** ** A parsed object that lacks a key *)

(** Reading the three keys of an object that lacks one raises the
    [KeyError] of the first key it lacks, whatever would follow. *)
Lemma subscript_first_missing (w : World) (items : list (str * json))
    (key : str) (k : json -> json -> json -> result DocumentAnalysis) :
  first_missing items = Some key ->
  (summary <- subscript w (JObj items) (lit "summary") ;;
   key_insights <- subscript w (JObj items) (lit "key_insights") ;;
   questions_answered <- subscript w (JObj items) (lit "questions_answered") ;;
   k summary key_insights questions_answered)
  = Raise (KeyError key).
Proof.
  unfold first_missing, expected_keys, subscript. cbn [List.find].
  destruct (dict_get (lit "summary") items);
    destruct (dict_get (lit "key_insights") items);
    destruct (dict_get (lit "questions_answered") items);
    cbn [bind]; intros H; inversion H; reflexivity.
Qed.

Lemma error_summary_not_delimiter (e : exn) :
  lit "Error processing document: " ++ exn_str e
  <> lit "Document analysis completed".
Proof. cbn. discriminate. Qed.

Lemma error_summary_not_exception (e : exn) (dt : str) :
  lit "Error processing document: " ++ exn_str e
  <> lit "Analysis completed for " ++ dt ++ lit " document".
Proof. cbn. discriminate. Qed.

(** C9. When the object parsed from the reply lacks one of the three keys,
    [_analyze_content] returns it unchanged, the field access of
    [process_file] raises the [KeyError] of the first key that is missing, and
    the handler turns it into the error record: the caller gets the summary
    ["Error processing document: "] followed by the quoted key, and neither of
    the analyzer's fallback summaries. *)
Theorem process_file_missing_key (w : World) (fu : FileUpload)
    (tag extracted text : str) (items : list (str * json)) (key : str) :
  _get_document_type w (content_type fu) = Ok tag ->
  extract w tag (file_path fu) = Ok extracted ->
  llm_invoke w (analysis_prompt extracted tag) = Ok (ContentStr text) ->
  contains (lit "{") text = true ->
  json_loads w (slice text (find (lit "{") text) (rfind (lit "}") text + 1))
  = Ok (JObj items) ->
  first_missing items = Some key ->
  _analyze_content w extracted tag = Ok (JObj items)
  /\ process_file w fu =
     Ok {| document_type := tag;
           summary := lit "Error processing document: '" ++ key ++ lit "'";
           key_insights := [lit "Document processing failed"];
           questions_answered :=
             [lit "Unable to analyze due to processing error"] |}
  /\ (forall da, process_file w fu = Ok da ->
       summary da <> lit "Document analysis completed"
       /\ summary da
          <> lit "Analysis completed for " ++ tag ++ lit " document").
Proof.
  intros Htag Hext Hreply Hopen Hparse Hmiss.
  assert (Han : _analyze_content w extracted tag = Ok (JObj items)).
  { apply analyze_content_ok.
    now rewrite (analyze_response_text _ _ _ Hreply), Hopen. }
  assert (Hne : tag <> []).
  { destruct (get_document_type_total w (content_type fu))
      as (tag' & Htag' & Hin).
    rewrite Htag in Htag'. apply Ok_inj in Htag'. subst tag'.
    now apply recognized_tag_nonempty. }
  assert (Hpf : process_file w fu = Ok (error_record tag (KeyError key))).
  { rewrite (process_file_classified w fu tag Htag Hne).
    unfold process_steps. rewrite Hext. cbn [bind]. rewrite Han. cbn [bind].
    now rewrite (subscript_first_missing w items key _ Hmiss). }
  split; [exact Han|split].
  - rewrite Hpf. reflexivity.
  - intros da Hda. rewrite Hpf in Hda. apply Ok_inj in Hda. subst da.
    split; [apply error_summary_not_delimiter
           |apply error_summary_not_exception].
Qed.

Lemma process_file_missing_key_witness :
  process_file empty_object_world (upload "text/plain" "notes.txt")
  = Ok {| document_type := lit "TXT";
          summary := lit "Error processing document: 'summary'";
          key_insights := [lit "Document processing failed"];
          questions_answered :=
            [lit "Unable to analyze due to processing error"] |}.
Proof.
  exact (proj1 (proj2
    (process_file_missing_key empty_object_world
       (upload "text/plain" "notes.txt") (lit "TXT")
       (lit "Error reading TXT: [Errno 2] No such file or directory")
       (lit "{}") [] (lit "summary")
       eq_refl eq_refl eq_refl eq_refl eq_refl eq_refl))).
Defined.

(** ** The PDF extractor *)

Lemma extract_pages_ok (texts : list str) (text : str) :
  extract_pages (map Ok texts) text
  = Ok (text ++ flat_map (fun t => t ++ nl) texts).
Proof.
  revert text. induction texts as [|t texts IH]; intros text; simpl.
  - now rewrite app_nil_r.
  - rewrite IH. now rewrite <- !app_assoc.
Qed.

Lemma extract_pages_raise (texts : list str) (e : exn)
    (rest : list (result str)) (text : str) :
  extract_pages (map Ok texts ++ Raise e :: rest) text = Raise e.
Proof.
  revert text. induction texts as [|t texts IH]; intros text; simpl.
  - reflexivity.
  - apply IH.
Qed.

(** Each page followed by a newline is the pages joined by newlines, with
    one more newline at the end. *)
Lemma concat_lines_join (texts : list str) :
  texts <> [] ->
  flat_map (fun t => t ++ nl) texts = join nl texts ++ nl.
Proof.
  induction texts as [|t texts IH]; [contradiction|]. intros _.
  destruct texts as [|t' texts].
  - simpl. now rewrite app_nil_r.
  - change (flat_map (fun t => t ++ nl) (t :: t' :: texts))
      with ((t ++ nl) ++ flat_map (fun t => t ++ nl) (t' :: texts)).
    rewrite IH by discriminate.
    change (join nl (t :: t' :: texts)) with (t ++ nl ++ join nl (t' :: texts)).
    now rewrite <- !app_assoc.
Qed.

(** C6. For a PDF that opens and whose pages all give their text,
    [_process_pdf] returns the texts of the pages in document order, each
    followed by a newline: the texts joined by newlines and one closing
    newline, a page without text giving its newline alone. When the file
    cannot be read or parsed, or a page fails, it returns the text
    ["Error reading PDF: "] with the error, and in no case does it raise. *)
Theorem process_pdf_pages (w : World) (path : str) :
  (forall texts,
      pdf_pages w path = Ok (map Ok texts) ->
      _process_pdf w path = Ok (flat_map (fun t => t ++ nl) texts)
      /\ (texts <> [] ->
          _process_pdf w path = Ok (join nl texts ++ nl)))
  /\ (forall before after,
        pdf_pages w path = Ok (map Ok (before ++ [] :: after)) ->
        _process_pdf w path
        = Ok (flat_map (fun t => t ++ nl) before ++ nl
              ++ flat_map (fun t => t ++ nl) after))
  /\ (forall e,
        pdf_pages w path = Raise e ->
        _process_pdf w path = Ok (lit "Error reading PDF: " ++ exn_str e))
  /\ (forall texts e rest,
        pdf_pages w path = Ok (map Ok texts ++ Raise e :: rest) ->
        _process_pdf w path = Ok (lit "Error reading PDF: " ++ exn_str e))
  /\ (exists text, _process_pdf w path = Ok text).
Proof.
  assert (Hok : forall texts,
             pdf_pages w path = Ok (map Ok texts) ->
             _process_pdf w path = Ok (flat_map (fun t => t ++ nl) texts)).
  { intros texts H. unfold _process_pdf. rewrite H. cbn [bind].
    now rewrite extract_pages_ok. }
  split; [|split; [|split; [|split]]].
  - intros texts H. split; [now apply Hok|].
    intros Hne. rewrite <- concat_lines_join by exact Hne. now apply Hok.
  - intros before after H. rewrite (Hok _ H).
    now rewrite flat_map_app.
  - intros e H. unfold _process_pdf. now rewrite H.
  - intros texts e rest H. unfold _process_pdf. rewrite H. cbn [bind].
    now rewrite extract_pages_raise.
  - unfold _process_pdf, try_except.
    destruct (pages <- pdf_pages w path;; extract_pages pages []); eauto.
Qed.

(** ** The CSV extractor *)

Lemma occurs_refl (s : str) : occurs s s.
Proof. exists [], []. now rewrite app_nil_r. Qed.

Lemma occurs_app_l (x a b : str) : occurs x a -> occurs x (a ++ b).
Proof.
  intros (pre & post & ->). exists pre, (post ++ b).
  now rewrite <- !app_assoc.
Qed.

Lemma occurs_app_r (x a b : str) : occurs x b -> occurs x (a ++ b).
Proof.
  intros (pre & post & ->). exists (a ++ pre), post.
  now rewrite <- !app_assoc.
Qed.

Lemma occurs_join (sep x : str) (xs : list str) :
  In x xs -> occurs x (join sep xs).
Proof.
  induction xs as [|y xs IH]; [contradiction|].
  intros [->|Hin].
  - destruct xs; simpl; [apply occurs_refl|apply occurs_app_l, occurs_refl].
  - destruct xs as [|z xs]; [contradiction|].
    change (join sep (y :: z :: xs)) with (y ++ sep ++ join sep (z :: xs)).
    now apply occurs_app_r, occurs_app_r, IH.
Qed.

Lemma occurs_flat_map {A : Type} (f : A -> str) (x : A) (xs : list A) :
  In x xs -> occurs (f x) (flat_map f xs).
Proof.
  induction xs as [|y xs IH]; [contradiction|].
  intros [->|Hin]; simpl.
  - apply occurs_app_l, occurs_refl.
  - now apply occurs_app_r, IH.
Qed.

(** The report, piece by piece. *)
Lemma csv_report_shape (w : World) (df : DataFrame) :
  csv_report w df =
  (lit "CSV file with " ++ str_of_nat (List.length (df_rows df))
   ++ lit " rows and " ++ str_of_nat (List.length (df_columns df))
   ++ lit " columns.") ++ nl
  ++ (lit "Columns: " ++ join (lit ", ") (map fst (df_columns df)))
  ++ nl ++ nl
  ++ lit "Column data types:" ++ nl
  ++ dtype_lines (df_columns df)
  ++ nl
  ++ (lit "First 5 rows:" ++ nl ++ to_string w (df_head df)) ++ nl
  ++ (if (0 <? List.length (numeric_columns df))%nat
      then nl ++ (lit "Numeric column statistics:" ++ nl
                  ++ describe_to_string w (df_numeric df)) ++ nl
      else []).
Proof.
  unfold csv_report, df_len.
  destruct (0 <? List.length (numeric_columns df))%nat;
    repeat rewrite <- app_assoc; repeat rewrite app_nil_r; reflexivity.
Qed.

(** A piece of a concatenation occurs in it. *)
Ltac occurs_piece :=
  repeat first [ apply occurs_refl
               | apply occurs_app_l; apply occurs_refl
               | apply occurs_app_l; assumption
               | assumption
               | apply occurs_app_r ].

(** C7. For a CSV file that parses into a table of N rows and M columns,
    [_process_csv] returns a report in which occur: the sentence with the
    decimal numbers N and M, every column name (in the line of the names and
    again in the line of its type, with the name of that type), the first
    five rows as [to_string] renders them, and, when some column is
    numeric, the statistics of the numeric columns as rendered. *)
Theorem process_csv_report (w : World) (path : str) (df : DataFrame) :
  read_csv w path = Ok df ->
  exists report,
    _process_csv w path = Ok report
    /\ occurs (lit "CSV file with " ++ str_of_nat (List.length (df_rows df))
               ++ lit " rows and " ++ str_of_nat (List.length (df_columns df))
               ++ lit " columns.") report
    /\ (forall col ty,
          In (col, ty) (df_columns df) ->
          occurs col report
          /\ occurs col (join (lit ", ") (map fst (df_columns df)))
          /\ occurs (lit "- " ++ col ++ lit ": " ++ dtype_name ty ++ nl)
                    report)
    /\ occurs (lit "Columns: " ++ join (lit ", ") (map fst (df_columns df)))
              report
    /\ occurs (lit "First 5 rows:" ++ nl
               ++ to_string w {| df_columns := df_columns df;
                                 df_rows := firstn 5 (df_rows df) |})
              report
    /\ (numeric_columns df <> [] ->
        occurs (lit "Numeric column statistics:" ++ nl
                ++ describe_to_string w (df_numeric df)) report)
    /\ map fst (df_columns (df_numeric df)) = numeric_columns df.
Proof.
  intros Hread. exists (csv_report w df). split.
  { unfold _process_csv. now rewrite Hread. }
  rewrite csv_report_shape.
  split; [occurs_piece|]. split; [|split; [|split; [|split]]].
  - intros col ty Hin.
    assert (Hname : occurs col (join (lit ", ") (map fst (df_columns df)))).
    { apply occurs_join. apply (in_map fst) in Hin. exact Hin. }
    split; [|split; [exact Hname|]].
    + apply (occurs_app_r _ (lit "Columns: ")) in Hname. occurs_piece.
    + pose proof (occurs_flat_map
                    (fun c => lit "- " ++ fst c ++ lit ": "
                              ++ dtype_name (snd c) ++ nl)
                    (col, ty) (df_columns df) Hin) as Hline.
      cbn [fst snd] in Hline. fold (dtype_lines (df_columns df)) in Hline.
      occurs_piece.
  - occurs_piece.
  - change {| df_columns := df_columns df;
              df_rows := firstn 5 (df_rows df) |} with (df_head df).
    occurs_piece.
  - intros Hnum.
    destruct (numeric_columns df) as [|c cs] eqn:E; [contradiction|].
    cbn [List.length Nat.ltb Nat.leb]. occurs_piece.
  - unfold df_numeric, numeric_columns. cbn [df_columns].
    induction (df_columns df) as [|[c ty] cols IH]; simpl.
    + reflexivity.
    + destruct (dtype_is_number ty); simpl; now rewrite IH.
Qed.

Lemma process_csv_report_witness :
  exists report,
    _process_csv csv_world (lit "people.csv") = Ok report
    /\ occurs (lit "CSV file with 2 rows and 2 columns.") report
    /\ occurs (lit "- age: int64" ++ nl) report.
Proof.
  destruct (process_csv_report csv_world (lit "people.csv") people eq_refl)
    as (report & Hrep & Hcount & Hcols & _).
  exists report. split; [exact Hrep|]. split; [exact Hcount|].
  exact (proj2 (proj2
           (Hcols (lit "age") int64 (or_intror (or_introl eq_refl))))).
Defined.

(** ** The text extractor *)

Lemma universal_newlines_without_cr (s : str) :
  ~ In CR s -> universal_newlines s = s.
Proof.
  induction s as [|c s IH]; intros Hcr; simpl.
  - reflexivity.
  - destruct (c =? CR)%N eqn:E.
    + apply N.eqb_eq in E. exfalso. apply Hcr. now left.
    + f_equal. apply IH. intros Hin. apply Hcr. now right.
Qed.

(** Arithmetic on byte values and code points, with the divisions by
    constants turned into their equations. *)
Ltac byte_arith :=
  unfold Utf8.second3, Utf8.second4, Utf8.cont, Utf8.between in *;
  repeat match goal with
         | H : (_ && _) = true |- _ => apply andb_true_iff in H; destruct H
         | H : (_ <=? _)%N = true |- _ => apply N.leb_le in H
         | H : (_ <? _)%N = false |- _ => apply N.ltb_ge in H
         | H : (_ <? _)%N = true |- _ => apply N.ltb_lt in H
         | H : (if (?a =? ?b)%N then _ else _) = true |- _ =>
             destruct (N.eqb_spec a b)
         end;
  zify; Z.to_euclidean_division_equations; lia.

Lemma encode_cp_2 (b0 b1 : N) :
  Utf8.between 194 223 b0 = true -> Utf8.cont b1 = true ->
  Utf8.encode_cp ((b0 - 192) * 64 + (b1 - 128))%N = [b0; b1].
Proof.
  intros H0 H1. unfold Utf8.encode_cp.
  replace ((b0 - 192) * 64 + (b1 - 128) <? 128)%N with false
    by (symmetry; apply N.ltb_ge; byte_arith).
  replace ((b0 - 192) * 64 + (b1 - 128) <? 2048)%N with true
    by (symmetry; apply N.ltb_lt; byte_arith).
  f_equal; [|f_equal]; byte_arith.
Qed.

Lemma encode_cp_3 (b0 b1 b2 : N) :
  Utf8.between 224 239 b0 = true ->
  Utf8.second3 b0 b1 = true -> Utf8.cont b2 = true ->
  Utf8.encode_cp ((b0 - 224) * 4096 + (b1 - 128) * 64 + (b2 - 128))%N
  = [b0; b1; b2].
Proof.
  intros H0 H1 H2. unfold Utf8.encode_cp.
  replace ((b0 - 224) * 4096 + (b1 - 128) * 64 + (b2 - 128) <? 128)%N
    with false by (symmetry; apply N.ltb_ge; byte_arith).
  replace ((b0 - 224) * 4096 + (b1 - 128) * 64 + (b2 - 128) <? 2048)%N
    with false by (symmetry; apply N.ltb_ge; byte_arith).
  replace ((b0 - 224) * 4096 + (b1 - 128) * 64 + (b2 - 128) <? 65536)%N
    with true by (symmetry; apply N.ltb_lt; byte_arith).
  f_equal; [|f_equal; [|f_equal]]; byte_arith.
Qed.

Lemma encode_cp_4 (b0 b1 b2 b3 : N) :
  Utf8.between 240 244 b0 = true ->
  Utf8.second4 b0 b1 = true -> Utf8.cont b2 = true -> Utf8.cont b3 = true ->
  Utf8.encode_cp ((b0 - 240) * 262144 + (b1 - 128) * 4096
                  + (b2 - 128) * 64 + (b3 - 128))%N
  = [b0; b1; b2; b3].
Proof.
  intros H0 H1 H2 H3. unfold Utf8.encode_cp.
  replace ((b0 - 240) * 262144 + (b1 - 128) * 4096
           + (b2 - 128) * 64 + (b3 - 128) <? 128)%N
    with false by (symmetry; apply N.ltb_ge; byte_arith).
  replace ((b0 - 240) * 262144 + (b1 - 128) * 4096
           + (b2 - 128) * 64 + (b3 - 128) <? 2048)%N
    with false by (symmetry; apply N.ltb_ge; byte_arith).
  replace ((b0 - 240) * 262144 + (b1 - 128) * 4096
           + (b2 - 128) * 64 + (b3 - 128) <? 65536)%N
    with false by (symmetry; apply N.ltb_ge; byte_arith).
  f_equal; [|f_equal; [|f_equal; [|f_equal]]]; byte_arith.
Qed.

Lemma encode_cons (c : codepoint) (s : str) :
  Utf8.encode (c :: s) = Utf8.encode_cp c ++ Utf8.encode s.
Proof. reflexivity. Qed.

(** What decodes re-encodes to the same bytes, by induction on a bound of
    the number of bytes. *)
Lemma decode_encode_bounded (n : nat) (bs : list N) (s : str) :
  (List.length bs <= n)%nat ->
  Utf8.decode bs = Some s -> Utf8.encode s = bs.
Proof.
  revert bs s. induction n as [|n IH]; intros bs s Hlen Hdec.
  - destruct bs; [|simpl in Hlen; lia].
    simpl in Hdec. inversion Hdec. reflexivity.
  - destruct bs as [|b0 t0]; [inversion Hdec; reflexivity|].
    simpl in Hdec. simpl in Hlen.
    destruct (b0 <? 128)%N eqn:E0.
    { destruct (Utf8.decode t0) as [s0|] eqn:D; [|discriminate].
      inversion Hdec; subst s. rewrite encode_cons.
      unfold Utf8.encode_cp. rewrite E0. cbn [app]. f_equal.
      apply IH; [lia|exact D]. }
    destruct t0 as [|b1 t1]; [discriminate|]. simpl in Hlen.
    destruct (Utf8.between 194 223 b0) eqn:E1.
    { destruct (Utf8.cont b1) eqn:C1; [|discriminate].
      destruct (Utf8.decode t1) as [s1|] eqn:D; [|discriminate].
      inversion Hdec; subst s. rewrite encode_cons, encode_cp_2 by assumption.
      cbn [app]. do 2 f_equal. apply IH; [lia|exact D]. }
    destruct t1 as [|b2 t2]; [discriminate|]. simpl in Hlen.
    destruct (Utf8.between 224 239 b0) eqn:E2.
    { destruct (Utf8.second3 b0 b1) eqn:C1; [|discriminate].
      destruct (Utf8.cont b2) eqn:C2; [|discriminate].
      cbn [andb] in Hdec.
      destruct (Utf8.decode t2) as [s2|] eqn:D; [|discriminate].
      inversion Hdec; subst s. rewrite encode_cons, encode_cp_3 by assumption.
      cbn [app]. do 3 f_equal. apply IH; [lia|exact D]. }
    destruct t2 as [|b3 t3]; [discriminate|]. simpl in Hlen.
    destruct (Utf8.between 240 244 b0) eqn:E3; [|discriminate].
    destruct (Utf8.second4 b0 b1) eqn:C1; [|discriminate].
    destruct (Utf8.cont b2) eqn:C2; [|discriminate].
    destruct (Utf8.cont b3) eqn:C3; [|discriminate].
    cbn [andb] in Hdec.
    destruct (Utf8.decode t3) as [s3|] eqn:D; [|discriminate].
    inversion Hdec; subst s. rewrite encode_cons, encode_cp_4 by assumption.
    cbn [app]. do 4 f_equal. apply IH; [lia|exact D].
Qed.

Lemma utf8_round_trip (bs : list byte) (s : str) :
  utf8_decode bs = Some s -> utf8_encode s = map Byte.to_N bs.
Proof.
  unfold utf8_decode, utf8_encode.
  apply (decode_encode_bounded (List.length (map Byte.to_N bs))). lia.
Qed.

Lemma encode_keeps_cr (s : str) : In CR s -> In CR (Utf8.encode s).
Proof.
  induction s as [|c s IH]; [contradiction|].
  rewrite encode_cons. intros [->|Hin]; apply in_or_app.
  - left. now left.
  - right. now apply IH.
Qed.

Lemma no_cr_byte_no_cr (bs : list byte) (s : str) :
  utf8_decode bs = Some s -> ~ In x0d bs -> ~ In CR s.
Proof.
  intros Hdec Hbytes Hcr. apply Hbytes.
  apply encode_keeps_cr in Hcr. fold (utf8_encode s) in Hcr.
  rewrite (utf8_round_trip _ _ Hdec) in Hcr.
  apply in_map_iff in Hcr. destruct Hcr as (b & Hb & Hin).
  assert (Hof : Byte.of_N (Byte.to_N b) = Some x0d) by now rewrite Hb.
  rewrite Byte.of_to_N in Hof. injection Hof as ->. exact Hin.
Qed.

(** C8, as the specification words it, fails: the file [a], CR, LF, [b] is
    well-formed UTF-8 and [_process_txt] does not return its decoded
    contents. *)
Lemma process_txt_verbatim_counterexample :
  ~ (forall (w : World) (path : str) (bs : list byte) (s : str),
        read_bytes w path = Ok bs ->
        utf8_decode bs = Some s ->
        _process_txt w path = Ok s).
Proof.
  intros H.
  specialize (H crlf_world (lit "notes.txt") crlf_bytes
                [97; 13; 10; 98]%N eq_refl eq_refl).
  vm_compute in H. discriminate H.
Qed.

(** C8, amended. For a file whose bytes are well-formed UTF-8,
    [_process_txt] returns the decoded text with universal newlines applied:
    each CR LF pair and each other CR has become one LF, and nothing else is
    changed or cut. The decoded text encodes back to the bytes of the file,
    so when the file has no CR byte the returned text is the contents of the
    file, byte for byte. *)
Theorem process_txt_text (w : World) (path : str) (bs : list byte) (s : str) :
  read_bytes w path = Ok bs ->
  utf8_decode bs = Some s ->
  _process_txt w path = Ok (universal_newlines s)
  /\ utf8_encode s = map Byte.to_N bs
  /\ (~ In x0d bs ->
      _process_txt w path = Ok s
      /\ forall text, _process_txt w path = Ok text ->
                      utf8_encode text = map Byte.to_N bs).
Proof.
  intros Hread Hdec.
  assert (Hres : _process_txt w path = Ok (universal_newlines s)).
  { unfold _process_txt, read_text. rewrite Hread. cbn [bind].
    now rewrite Hdec. }
  split; [exact Hres|]. split; [now apply utf8_round_trip|].
  intros Hbytes.
  assert (Hsame : _process_txt w path = Ok s).
  { rewrite Hres. f_equal. apply universal_newlines_without_cr.
    now apply (no_cr_byte_no_cr bs). }
  split; [exact Hsame|].
  intros text Htext. rewrite Hsame in Htext. apply Ok_inj in Htext.
  subst text. now apply utf8_round_trip.
Qed.

Lemma process_txt_text_witness :
  _process_txt crlf_world (lit "notes.txt") = Ok (lit "a" ++ nl ++ lit "b").
Proof.
  exact (proj1 (process_txt_text crlf_world (lit "notes.txt") crlf_bytes
                  [97; 13; 10; 98]%N eq_refl eq_refl)).
Defined.

(** * Further properties *)

(** ** The dispatcher and the extractors *)

Lemma str_eqb_eq (a b : str) : str_eqb a b = true <-> a = b.
Proof.
  revert b. induction a as [|x a IH]; intros [|y b]; simpl;
    try (split; [discriminate|discriminate]); try tauto.
  rewrite andb_true_iff, N.eqb_eq, IH. split.
  - intros [-> ->]. reflexivity.
  - intros H. inversion H. tauto.
Qed.

Lemma str_eqb_neq (a b : str) : a <> b -> str_eqb a b = false.
Proof.
  intros H. destruct (str_eqb a b) eqn:E; [|reflexivity].
  apply str_eqb_eq in E. contradiction.
Qed.

Lemma str_eqb_refl (a : str) : str_eqb a a = true.
Proof. now apply str_eqb_eq. Qed.

(** The dispatcher reads its argument through [lower] alone. *)
Lemma get_document_type_by_lower (w w' : World) (ct ct' : str) :
  lower w ct = lower w' ct' ->
  _get_document_type w ct = _get_document_type w' ct'.
Proof. unfold _get_document_type. now intros ->. Qed.

(** The tag of an ASCII content type depends neither on the case of its
    letters nor on the case table of the world: two ASCII content types that
    are equal up to the case of their letters get the same tag. *)
Theorem get_document_type_ignores_case (w w' : World) (ct ct' : str) :
  Forall (fun c => (c < 128)%N) ct ->
  Forall (fun c => (c < 128)%N) ct' ->
  map ascii_lower ct = map ascii_lower ct' ->
  _get_document_type w ct = _get_document_type w' ct'.
Proof.
  intros H H' E. apply get_document_type_by_lower.
  now rewrite (lower_ascii w ct H), (lower_ascii w' ct' H'), E.
Qed.

Ltac all_ascii :=
  repeat (constructor; [reflexivity|]); constructor.

Lemma get_document_type_ignores_case_witness :
  _get_document_type empty_world (lit "Text/CSV; Charset=UTF-8")
  = _get_document_type prose_world (lit "text/csv; charset=utf-8").
Proof.
  apply get_document_type_ignores_case;
    [vm_compute; all_ascii | vm_compute; all_ascii | reflexivity].
Defined.

(** In every run, failed or not, the [document_type] of the record that
    [process_file] returns is the tag the dispatcher gave to the content
    type: the default ["UNKNOWN"] of the handler is never used, and the
    handler never finds [document_type] unbound. *)
Theorem process_file_document_type (w : World) (fu : FileUpload) :
  exists tag da,
    _get_document_type w (content_type fu) = Ok tag
    /\ or_unknown (Some tag) = Ok tag
    /\ process_file w fu = Ok da
    /\ document_type da = tag.
Proof.
  destruct (get_document_type_total w (content_type fu))
    as (tag & Htag & Hin).
  pose proof (recognized_tag_nonempty tag Hin) as Hne.
  assert (Hor : or_unknown (Some tag) = Ok tag).
  { destruct tag; [contradiction|reflexivity]. }
  rewrite (process_file_classified w fu tag Htag Hne).
  destruct (process_steps w tag (file_path fu)) as [da|e] eqn:Hsteps.
  - exists tag, da. repeat split; try assumption.
    exact (process_steps_document_type _ _ _ _ Hsteps).
  - exists tag, (error_record tag e). repeat split; assumption.
Qed.

Lemma try_except_total {A : Type} (body : result A) (f : exn -> A) :
  exists v, try_except body (fun e => Ok (f e)) = Ok v.
Proof. destruct body; simpl; eauto. Qed.

Lemma extract_extractable (w : World) (tag path : str) :
  In tag extractable_tags -> exists text, extract w tag path = Ok text.
Proof.
  unfold extractable_tags. simpl.
  intros H; repeat destruct H as [H|H]; try contradiction; subst tag;
    unfold extract; cbn [str_eqb lit map list_ascii_of_string N_of_ascii
                         N_of_digits N.eqb Pos.eqb andb N.add N.mul];
    apply try_except_total.
Qed.

Lemma extract_unsupported (w : World) (tag path : str) :
  ~ In tag extractable_tags ->
  extract w tag path
  = Raise (ValueError (lit "Unsupported document type: " ++ tag)).
Proof.
  intros Hnot. unfold extract.
  rewrite !str_eqb_neq; [reflexivity| | | | |];
    intros ->; apply Hnot; unfold extractable_tags; simpl; tauto.
Qed.

(** [extract] returns a text for each of the five tags that have an
    extractor, whatever happens to the file: every extractor turns its
    errors into text. For any other tag, UNKNOWN among them, it raises the
    [ValueError] that names the tag. *)
Theorem extract_raises_only_unsupported (w : World) (tag path : str) :
  (In tag extractable_tags -> exists text, extract w tag path = Ok text)
  /\ (~ In tag extractable_tags ->
      extract w tag path
      = Raise (ValueError (lit "Unsupported document type: " ++ tag))).
Proof.
  split; [apply extract_extractable|apply extract_unsupported].
Qed.

(** ** How the steps of [process_file] compose *)

(** For a tag that has an extractor, [process_file] analyses the text of the
    extractor, which exists, and builds its record from the analysis. *)
Lemma process_file_extractable (w : World) (fu : FileUpload) (tag : str) :
  _get_document_type w (content_type fu) = Ok tag ->
  In tag extractable_tags ->
  exists extracted,
    extract w tag (file_path fu) = Ok extracted
    /\ process_file w fu =
       match
         (analysis <- _analyze_content w extracted tag ;;
          summary <- subscript w analysis (lit "summary") ;;
          key_insights <- subscript w analysis (lit "key_insights") ;;
          questions_answered <-
            subscript w analysis (lit "questions_answered") ;;
          DocumentAnalysis_init w (JStr tag) summary key_insights
                                questions_answered)
       with
       | Ok da => Ok da
       | Raise e => Ok (error_record tag e)
       end.
Proof.
  intros Htag Hin.
  destruct (extract_extractable w tag (file_path fu) Hin) as (text & Hext).
  exists text. split; [exact Hext|].
  assert (Hne : tag <> []).
  { intros ->. unfold extractable_tags in Hin. simpl in Hin.
    repeat destruct Hin as [Hin|Hin]; try discriminate; contradiction. }
  rewrite (process_file_classified w fu tag Htag Hne).
  unfold process_steps. now rewrite Hext.
Qed.

(** When the model cannot be reached, whatever the file is (missing,
    corrupt or sound), [process_file] returns for a tag that has an
    extractor the record of the analyzer's [except] branch: a summary that
    says the analysis was completed, and no sign of the failure. *)
Theorem process_file_model_unreachable (w : World) (fu : FileUpload)
    (tag : str) (e : exn) :
  _get_document_type w (content_type fu) = Ok tag ->
  In tag extractable_tags ->
  replies w (Raise e) ->
  process_file w fu =
  Ok {| document_type := tag;
        summary := lit "Analysis completed for " ++ tag ++ lit " document";
        key_insights := [lit "Document processed successfully";
                         lit "Content extracted"];
        questions_answered := [lit "What is the main topic?";
                               lit "What are the key points?"] |}.
Proof.
  intros Htag Hin Hreply.
  destruct (process_file_extractable w fu tag Htag Hin)
    as (text & _ & ->).
  unfold _analyze_content, analyze_response. rewrite Hreply. reflexivity.
Qed.

Lemma process_file_model_unreachable_witness :
  process_file empty_world (upload "application/pdf" "gone.pdf")
  = Ok {| document_type := lit "PDF";
          summary := lit "Analysis completed for PDF document";
          key_insights := [lit "Document processed successfully";
                           lit "Content extracted"];
          questions_answered := [lit "What is the main topic?";
                                 lit "What are the key points?"] |}.
Proof.
  apply (process_file_model_unreachable empty_world
           (upload "application/pdf" "gone.pdf") (lit "PDF")
           (LibraryError "ConnectionError" (lit "unreachable"))).
  - reflexivity.
  - left. reflexivity.
  - intros prompt. reflexivity.
Defined.

(** When the reply of the model has no ["{"], whatever the file is,
    [process_file] returns for a tag that has an extractor the fixed record
    of the analyzer's [else] branch, which says that the content was
    extracted successfully even when the extractor failed. *)
Theorem process_file_reply_without_brace (w : World) (fu : FileUpload)
    (tag text : str) :
  _get_document_type w (content_type fu) = Ok tag ->
  In tag extractable_tags ->
  replies w (Ok (ContentStr text)) ->
  contains (lit "{") text = false ->
  process_file w fu =
  Ok {| document_type := tag;
        summary := lit "Document analysis completed";
        key_insights := [lit "Content extracted successfully"];
        questions_answered :=
          [lit "General questions about document content"] |}.
Proof.
  intros Htag Hin Hreply Hopen.
  destruct (process_file_extractable w fu tag Htag Hin)
    as (extracted & _ & ->).
  rewrite (analyze_content_ok w extracted tag delimiter_fallback).
  - reflexivity.
  - now rewrite (analyze_response_text _ _ _ (Hreply _)), Hopen.
Qed.

Lemma process_file_reply_without_brace_witness :
  process_file prose_world (upload "image/png" "gone.png")
  = Ok {| document_type := lit "IMAGE";
          summary := lit "Document analysis completed";
          key_insights := [lit "Content extracted successfully"];
          questions_answered :=
            [lit "General questions about document content"] |}.
Proof.
  apply (process_file_reply_without_brace prose_world
           (upload "image/png" "gone.png") (lit "IMAGE")
           (lit "no json here")).
  - reflexivity.
  - do 4 right. left. reflexivity.
  - intros prompt. reflexivity.
  - reflexivity.
Defined.

Lemma validate_each_strings (w : World) (xs : list str) :
  validate_each w (map JStr xs) = Some xs.
Proof.
  induction xs as [|x xs IH]; simpl.
  - reflexivity.
  - now rewrite IH.
Qed.

(** On a text reply with a ["{"] whose slice parses, the analysis is the
    parsed value. *)
Lemma analyze_content_slice (w : World) (content dt text : str) (v : json) :
  llm_invoke w (analysis_prompt content dt) = Ok (ContentStr text) ->
  contains (lit "{") text = true ->
  json_loads w (slice text (find (lit "{") text) (rfind (lit "}") text + 1))
  = Ok v ->
  _analyze_content w content dt = Ok v.
Proof.
  intros Hreply Hopen Hparse. apply analyze_content_ok.
  now rewrite (analyze_response_text _ _ _ Hreply), Hopen.
Qed.

(** When the object parsed from the reply has a string under [summary] and
    lists of strings under [key_insights] and [questions_answered],
    [process_file] returns the dispatcher's tag with exactly these three
    values, whatever other keys the object has. *)
Theorem process_file_returns_parsed_fields (w : World) (fu : FileUpload)
    (tag text : str) (items : list (str * json))
    (s : str) (ks qs : list str) :
  _get_document_type w (content_type fu) = Ok tag ->
  In tag extractable_tags ->
  replies w (Ok (ContentStr text)) ->
  contains (lit "{") text = true ->
  json_loads w (slice text (find (lit "{") text) (rfind (lit "}") text + 1))
  = Ok (JObj items) ->
  dict_get (lit "summary") items = Some (JStr s) ->
  dict_get (lit "key_insights") items = Some (JArr (map JStr ks)) ->
  dict_get (lit "questions_answered") items = Some (JArr (map JStr qs)) ->
  process_file w fu =
  Ok {| document_type := tag; summary := s;
        key_insights := ks; questions_answered := qs |}.
Proof.
  intros Htag Hin Hreply Hopen Hparse Hs Hk Hq.
  destruct (process_file_extractable w fu tag Htag Hin)
    as (extracted & _ & ->).
  rewrite (analyze_content_slice w extracted tag text _ (Hreply _) Hopen Hparse).
  cbn [bind subscript]. rewrite Hs, Hk, Hq. cbn [bind].
  unfold DocumentAnalysis_init. cbn [validate_str validate_str_list].
  now rewrite !validate_each_strings.
Qed.

Lemma process_file_returns_parsed_fields_witness :
  process_file answer_world (upload "text/csv" "gone.csv")
  = Ok {| document_type := lit "CSV"; summary := lit "S";
          key_insights := [lit "K"]; questions_answered := [lit "Q"] |}.
Proof.
  apply (process_file_returns_parsed_fields answer_world
           (upload "text/csv" "gone.csv") (lit "CSV")
           (lit "Here it is: " ++ answer_text ++ lit " Done.")
           answer_items (lit "S") [lit "K"] [lit "Q"]);
    try reflexivity.
  - do 2 right. left. reflexivity.
  - intros prompt. reflexivity.
Defined.

(** When the parsed object has the three keys but the value under
    [key_insights] or under [questions_answered] is not a list, the record
    is refused at its construction and [process_file] returns the error
    record with the text of the validation error: the summary that was
    parsed is not returned. *)
Theorem process_file_refuses_non_list (w : World) (fu : FileUpload)
    (tag text : str) (items : list (str * json)) (sv kv qv : json) :
  _get_document_type w (content_type fu) = Ok tag ->
  In tag extractable_tags ->
  replies w (Ok (ContentStr text)) ->
  contains (lit "{") text = true ->
  json_loads w (slice text (find (lit "{") text) (rfind (lit "}") text + 1))
  = Ok (JObj items) ->
  dict_get (lit "summary") items = Some sv ->
  dict_get (lit "key_insights") items = Some kv ->
  dict_get (lit "questions_answered") items = Some qv ->
  is_array kv && is_array qv = false ->
  process_file w fu =
  Ok {| document_type := tag;
        summary := lit "Error processing document: "
                   ++ validation_message w [JStr tag; sv; kv; qv];
        key_insights := [lit "Document processing failed"];
        questions_answered :=
          [lit "Unable to analyze due to processing error"] |}.
Proof.
  intros Htag Hin Hreply Hopen Hparse Hs Hk Hq Harr.
  destruct (process_file_extractable w fu tag Htag Hin)
    as (extracted & _ & ->).
  rewrite (analyze_content_slice w extracted tag text _ (Hreply _) Hopen Hparse).
  cbn [bind subscript]. rewrite Hs, Hk, Hq. cbn [bind].
  unfold DocumentAnalysis_init. cbn [validate_str].
  destruct (validate_str w sv); [|reflexivity].
  destruct kv; try reflexivity.
  destruct qv; try discriminate Harr;
    cbn [validate_str_list]; destruct (validate_each w xs); reflexivity.
Qed.

Lemma process_file_refuses_non_list_witness :
  process_file flat_insights_world (upload "text/plain" "gone.txt")
  = Ok {| document_type := lit "TXT";
          summary := lit "Error processing document: validation error for DocumentAnalysis";
          key_insights := [lit "Document processing failed"];
          questions_answered :=
            [lit "Unable to analyze due to processing error"] |}.
Proof.
  apply (process_file_refuses_non_list flat_insights_world
           (upload "text/plain" "gone.txt") (lit "TXT") flat_insights_text
           flat_insights_items (JStr (lit "S")) (JStr (lit "K")) (JArr []));
    try reflexivity.
  - do 3 right. left. reflexivity.
  - intros prompt. reflexivity.
Defined.

(** ** The prompt and the slice of the reply *)



Lemma startswith_char (c x : codepoint) (s : str) :
  startswith [c] (x :: s) = N.eqb c x.
Proof. simpl. apply andb_true_r. Qed.

Lemma contains_char_cons (c x : codepoint) (s : str) :
  contains [c] (x :: s) = false ->
  N.eqb c x = false /\ contains [c] s = false.
Proof.
  simpl. rewrite andb_true_r. intros H. now apply orb_false_iff in H.
Qed.

Lemma find_from_char (c : codepoint) (pre rest : str) (i : Z) :
  contains [c] pre = false ->
  find_from [c] (pre ++ c :: rest) i = (i + Z.of_nat (List.length pre))%Z.
Proof.
  revert i. induction pre as [|x pre IH]; intros i H.
  - cbn [app find_from]. rewrite startswith_char, N.eqb_refl. simpl. lia.
  - apply contains_char_cons in H. destruct H as [Hx Hpre].
    cbn [app find_from]. rewrite startswith_char, Hx.
    rewrite (IH _ Hpre). cbn [List.length]. lia.
Qed.

Lemma rfind_from_char (c : codepoint) (pre post : str) (i best : Z) :
  contains [c] post = false ->
  rfind_from [c] (pre ++ c :: post) i best
  = (i + Z.of_nat (List.length pre))%Z.
Proof.
  revert i best. induction pre as [|x pre IH]; intros i best H.
  - cbn [app rfind_from]. rewrite startswith_char, N.eqb_refl.
    rewrite (rfind_from_absent _ _ _ _ H). simpl. lia.
  - cbn [app rfind_from]. rewrite (IH _ _ H). cbn [List.length]. lia.
Qed.

(** With no [c] from some point on, [rfind] stays before that point. *)
Lemma rfind_from_char_before (c : codepoint) (pre tail : str) (i best : Z) :
  contains [c] tail = false ->
  (best < i + Z.of_nat (List.length pre))%Z ->
  (rfind_from [c] (pre ++ tail) i best < i + Z.of_nat (List.length pre))%Z.
Proof.
  revert i best. induction pre as [|x pre IH]; intros i best H Hb.
  - cbn [app]. now rewrite (rfind_from_absent _ _ _ _ H).
  - cbn [app rfind_from]. cbn [List.length] in *.
    specialize (IH (i + 1)%Z
                  (if startswith [c] (x :: pre ++ tail) then i else best) H).
    destruct (startswith [c] (x :: pre ++ tail)); lia.
Qed.

Lemma slice_middle (pre mid post : str) :
  slice (pre ++ mid ++ post) (Z.of_nat (List.length pre))
        (Z.of_nat (List.length pre) + Z.of_nat (List.length mid))
  = mid.
Proof.
  unfold slice, clamp_index. rewrite !length_app.
  destruct (Z.of_nat (List.length pre) <? 0)%Z eqn:E1;
    [apply Z.ltb_lt in E1; lia|].
  destruct (Z.of_nat (List.length pre) + Z.of_nat (List.length mid) <? 0)%Z
    eqn:E2; [apply Z.ltb_lt in E2; lia|].
  rewrite !Z.min_l by lia.
  rewrite Nat2Z.id.
  replace (Z.to_nat (Z.of_nat (List.length pre) + Z.of_nat (List.length mid)
                     - Z.of_nat (List.length pre)))
    with (List.length mid) by lia.
  rewrite skipn_app, skipn_all, Nat.sub_diag. cbn [app skipn].
  rewrite firstn_app, firstn_all, Nat.sub_diag. cbn [firstn].
  apply app_nil_r.
Qed.

(** [s[i:j]] is empty when [j] is not after [i]. *)
Lemma slice_empty (s : str) (i j : Z) :
  (0 <= j <= i)%Z -> slice s i j = [].
Proof.
  intros H. unfold slice, clamp_index.
  destruct (i <? 0)%Z eqn:E1; [apply Z.ltb_lt in E1; lia|].
  destruct (j <? 0)%Z eqn:E2; [apply Z.ltb_lt in E2; lia|].
  replace (Z.to_nat (Z.min j (Z.of_nat (List.length s))
                     - Z.min i (Z.of_nat (List.length s)))) with 0%nat by lia.
  reflexivity.
Qed.

(** The text given to [json.loads] is the reply from its first ["{"] to its
    last ["}"], both included: what the model writes before and after is
    dropped, and what it writes between them is kept, braces and all. The
    analysis is the parsed value of that text, or the record of the
    [except] branch when it does not parse. *)
Theorem analyze_content_slices_braces (w : World) (content dt : str)
    (pre mid post : str) :
  llm_invoke w (analysis_prompt content dt)
  = Ok (ContentStr (pre ++ lit "{" ++ mid ++ lit "}" ++ post)) ->
  contains (lit "{") pre = false ->
  contains (lit "}") post = false ->
  slice (pre ++ lit "{" ++ mid ++ lit "}" ++ post)
        (find (lit "{") (pre ++ lit "{" ++ mid ++ lit "}" ++ post))
        (rfind (lit "}") (pre ++ lit "{" ++ mid ++ lit "}" ++ post) + 1)
  = lit "{" ++ mid ++ lit "}"
  /\ _analyze_content w content dt
     = match json_loads w (lit "{" ++ mid ++ lit "}") with
       | Ok v => Ok v
       | Raise _ => Ok (exception_fallback dt)
       end.
Proof.
  intros Hreply Hpre Hpost.
  set (text := pre ++ lit "{" ++ mid ++ lit "}" ++ post) in *.
  assert (Hfind : find (lit "{") text = Z.of_nat (List.length pre)).
  { unfold find, text. exact (find_from_char _ pre _ 0%Z Hpre). }
  assert (Hrfind : rfind (lit "}") text
                   = Z.of_nat (List.length (pre ++ lit "{" ++ mid))).
  { unfold rfind, text.
    replace (pre ++ lit "{" ++ mid ++ lit "}" ++ post)
      with ((pre ++ lit "{" ++ mid) ++ 125%N :: post)
      by (now rewrite <- !app_assoc).
    exact (rfind_from_char _ _ post 0%Z (-1)%Z Hpost). }
  assert (Hslice : slice text (find (lit "{") text)
                         (rfind (lit "}") text + 1)
                   = lit "{" ++ mid ++ lit "}").
  { rewrite Hfind, Hrfind. unfold text.
    replace (pre ++ lit "{" ++ mid ++ lit "}" ++ post)
      with (pre ++ (lit "{" ++ mid ++ lit "}") ++ post)
      by (now rewrite <- !app_assoc).
    replace (Z.of_nat (List.length (pre ++ lit "{" ++ mid)) + 1)%Z
      with (Z.of_nat (List.length pre)
            + Z.of_nat (List.length (lit "{" ++ mid ++ lit "}")))%Z.
    - apply slice_middle.
    - rewrite !length_app. cbn [lit list_ascii_of_string map List.length].
      lia. }
  split; [exact Hslice|].
  assert (Hopen : contains (lit "{") text = true).
  { unfold text. apply contains_app. }
  unfold _analyze_content.
  rewrite (analyze_response_text _ _ _ Hreply), Hopen, Hslice.
  now destruct (json_loads w (lit "{" ++ mid ++ lit "}")).
Qed.

(** When every ["}"] of the reply comes before its first ["{"], the slice
    is empty, as when there is no ["}"] at all, and the analysis is the
    record of the [except] branch. *)
Theorem analyze_content_braces_reversed (w : World) (content dt : str)
    (pre post : str) (e : exn) :
  llm_invoke w (analysis_prompt content dt)
  = Ok (ContentStr (pre ++ lit "{" ++ post)) ->
  contains (lit "{") pre = false ->
  contains (lit "}") post = false ->
  json_loads w [] = Raise e ->
  slice (pre ++ lit "{" ++ post)
        (find (lit "{") (pre ++ lit "{" ++ post))
        (rfind (lit "}") (pre ++ lit "{" ++ post) + 1)
  = []
  /\ _analyze_content w content dt = Ok (exception_fallback dt).
Proof.
  intros Hreply Hpre Hpost Hempty.
  set (text := pre ++ lit "{" ++ post) in *.
  assert (Hfind : find (lit "{") text = Z.of_nat (List.length pre)).
  { unfold find, text. exact (find_from_char _ pre _ 0%Z Hpre). }
  assert (Hrfind : (rfind (lit "}") text < Z.of_nat (List.length pre))%Z).
  { unfold rfind, text.
    apply (rfind_from_char_before 125%N pre (lit "{" ++ post) 0%Z (-1)%Z);
      [|lia].
    change (lit "{" ++ post) with (123%N :: post).
    change (contains [125%N] (123%N :: post))
      with (false || contains [125%N] post). exact Hpost. }
  pose proof (rfind_lower_bound (lit "}") text) as Hlow.
  assert (Hslice : slice text (find (lit "{") text)
                         (rfind (lit "}") text + 1) = []).
  { rewrite Hfind. apply slice_empty. lia. }
  split; [exact Hslice|].
  assert (Hopen : contains (lit "{") text = true).
  { unfold text. apply (contains_app (lit "{") pre post). }
  apply analyze_content_raise with (e := e).
  now rewrite (analyze_response_text _ _ _ Hreply), Hopen, Hslice.
Qed.

Lemma analyze_content_slices_braces_witness :
  _analyze_content answer_world (lit "some text") (lit "TXT")
  = Ok (JObj answer_items).
Proof.
  exact (proj2
    (analyze_content_slices_braces answer_world (lit "some text") (lit "TXT")
       (lit "Here it is: ")
       (quoted "summary" ++ lit ": " ++ quoted "S" ++ lit ", "
        ++ quoted "key_insights" ++ lit ": [" ++ quoted "K" ++ lit "], "
        ++ quoted "questions_answered" ++ lit ": [" ++ quoted "Q" ++ lit "]")
       (lit " Done.")
       eq_refl eq_refl eq_refl)).
Defined.

Lemma analyze_content_braces_reversed_witness :
  _analyze_content reversed_world (lit "some text") (lit "TXT")
  = Ok (exception_fallback (lit "TXT")).
Proof.
  exact (proj2
    (analyze_content_braces_reversed reversed_world (lit "some text")
       (lit "TXT") (lit "} and then ") [] json_decode_error
       eq_refl eq_refl eq_refl eq_refl)).
Defined.

(** ** The other extractors *)

(** [_process_docx] never raises. It returns the paragraphs in document
    order with one newline between two of them and none at the end, so that
    a document without paragraphs gives the empty text and every paragraph
    occurs in the result; when the document cannot be opened it returns
    ["Error reading DOCX: "] with the error. *)
Theorem process_docx_paragraphs (w : World) (path : str) :
  (exists text, _process_docx w path = Ok text)
  /\ (forall ps,
        docx_paragraphs w path = Ok ps ->
        _process_docx w path = Ok (join nl ps)
        /\ (ps = [] -> _process_docx w path = Ok [])
        /\ (forall p, In p ps -> occurs p (join nl ps))
        /\ (ps <> [] -> join nl ps ++ nl = flat_map (fun p => p ++ nl) ps))
  /\ (forall e,
        docx_paragraphs w path = Raise e ->
        _process_docx w path = Ok (lit "Error reading DOCX: " ++ exn_str e)).
Proof.
  split; [apply try_except_total|]. split.
  - intros ps Hps.
    assert (H : _process_docx w path = Ok (join nl ps)).
    { unfold _process_docx. now rewrite Hps. }
    split; [exact H|]. split; [|split].
    + intros ->. exact H.
    + intros p. apply occurs_join.
    + intros Hne. symmetry. now apply concat_lines_join.
  - intros e He. unfold _process_docx. now rewrite He.
Qed.

(** The decimal digits of a number hold no character but digits. *)
Lemma str_of_nat_digits (n : nat) :
  Forall (fun c => (48 <= c <= 57)%N) (str_of_nat n).
Proof.
  unfold str_of_nat. generalize (Nat.to_uint n). intros d.
  induction d; cbn [NilEmpty.string_of_uint lit list_ascii_of_string map];
    constructor; try exact IHd; cbn; lia.
Qed.

Lemma not_in_app {A : Type} (x : A) (a b : list A) :
  ~ In x a -> ~ In x b -> ~ In x (a ++ b).
Proof. intros Ha Hb H. apply in_app_or in H. tauto. Qed.

Lemma str_of_nat_no_newline (n : nat) : ~ In LF (str_of_nat n).
Proof.
  intros H. pose proof (str_of_nat_digits n) as Hd.
  rewrite Forall_forall in Hd. specialize (Hd _ H). unfold LF in Hd. lia.
Qed.

Ltac no_newline_literal :=
  let H := fresh in
  intros H; vm_compute in H;
  repeat destruct H as [H|H]; try discriminate H; contradiction.

(** [_process_image] never raises. For an image that opens it returns one
    line, as long as the format and the mode are themselves on one line:
    the text ["Image file: "], the format, the size as decimal width and
    height, and the mode. When the image cannot be opened it returns
    ["Error processing image: "] with the error. *)
Theorem process_image_one_line (w : World) (path : str) :
  (exists text, _process_image w path = Ok text)
  /\ (forall img,
        image_open w path = Ok img ->
        _process_image w path
        = Ok (lit "Image file: " ++ format_str (img_format img)
              ++ lit ", Size: (" ++ str_of_nat (fst (img_size img))
              ++ lit ", " ++ str_of_nat (snd (img_size img))
              ++ lit "), Mode: " ++ img_mode img)
        /\ (~ In LF (format_str (img_format img)) ->
            ~ In LF (img_mode img) ->
            forall text, _process_image w path = Ok text -> ~ In LF text))
  /\ (forall e,
        image_open w path = Raise e ->
        _process_image w path
        = Ok (lit "Error processing image: " ++ exn_str e)).
Proof.
  split; [apply try_except_total|]. split.
  - intros img Himg.
    assert (H : _process_image w path
                = Ok (lit "Image file: " ++ format_str (img_format img)
                      ++ lit ", Size: (" ++ str_of_nat (fst (img_size img))
                      ++ lit ", " ++ str_of_nat (snd (img_size img))
                      ++ lit "), Mode: " ++ img_mode img)).
    { unfold _process_image, size_str. rewrite Himg. cbn [bind try_except].
      f_equal. now rewrite <- !app_assoc. }
    split; [exact H|].
    intros Hf Hm text Htext. rewrite H in Htext. apply Ok_inj in Htext.
    subst text.
    repeat (apply not_in_app;
            [first [ exact Hf | apply str_of_nat_no_newline
                   | no_newline_literal ]|]).
    exact Hm.
  - intros e He. unfold _process_image. now rewrite He.
Qed.

(** ** Universal newlines *)

Lemma universal_newlines_bounded (n : nat) (s : str) :
  (List.length s <= n)%nat ->
  ~ In CR (universal_newlines s)
  /\ (List.length (universal_newlines s) <= List.length s)%nat.
Proof.
  revert s. induction n as [|n IH]; intros s Hlen.
  - destruct s; [|simpl in Hlen; lia]. simpl. split; [tauto|lia].
  - destruct s as [|c t]; [simpl; split; [tauto|lia]|].
    simpl in Hlen. cbn [universal_newlines].
    destruct (c =? CR)%N eqn:Ec.
    + destruct t as [|d t'].
      * split; [|simpl; lia]. intros [H|[]]. discriminate H.
      * simpl in Hlen.
        destruct (d =? LF)%N.
        -- destruct (IH t') as [H1 H2]; [lia|].
           split; [|simpl; lia]. intros [H|H]; [discriminate H|tauto].
        -- destruct (IH (d :: t')) as [H1 H2]; [simpl; lia|].
           split; [|simpl in *; lia]. intros [H|H]; [discriminate H|tauto].
    + destruct (IH t) as [H1 H2]; [lia|].
      split; [|simpl; lia]. intros [H|H]; [|tauto].
      subst c. now rewrite N.eqb_refl in Ec.
Qed.

(** The text [_process_txt] returns for a file of well-formed UTF-8 holds no
    carriage return, whatever the line endings of the file; it is never
    longer than the decoded contents, and reading it through universal
    newlines again would not change it. *)
Theorem process_txt_no_carriage_return (w : World) (path : str)
    (bs : list byte) (s : str) :
  read_bytes w path = Ok bs ->
  utf8_decode bs = Some s ->
  exists text,
    _process_txt w path = Ok text
    /\ ~ In CR text
    /\ (List.length text <= List.length s)%nat
    /\ universal_newlines text = text.
Proof.
  intros Hread Hdec. exists (universal_newlines s).
  destruct (universal_newlines_bounded (List.length s) s (Nat.le_refl _))
    as [Hcr Hlen].
  split; [|split; [exact Hcr|split; [exact Hlen|]]].
  - unfold _process_txt, read_text. rewrite Hread. cbn [bind].
    now rewrite Hdec.
  - now apply universal_newlines_without_cr.
Qed.

Lemma process_txt_no_carriage_return_witness :
  exists text,
    _process_txt crlf_world (lit "notes.txt") = Ok text
    /\ ~ In CR text
    /\ (List.length text <= 4)%nat
    /\ universal_newlines text = text.
Proof.
  exact (process_txt_no_carriage_return crlf_world (lit "notes.txt")
           crlf_bytes [97; 13; 10; 98]%N eq_refl eq_refl).
Defined.

(** ** Small tables and tables without numbers *)

Lemma df_head_small (df : DataFrame) :
  (List.length (df_rows df) <= 5)%nat -> df_head df = df.
Proof.
  intros H. destruct df as [cols rows]. unfold df_head. cbn [df_columns df_rows] in *.
  now rewrite firstn_all2 by exact H.
Qed.

(** A table of at most five rows is rendered whole in the report, under
    the heading of the first five rows. *)
Theorem process_csv_small_table (w : World) (path : str) (df : DataFrame) :
  read_csv w path = Ok df ->
  (List.length (df_rows df) <= 5)%nat ->
  exists report,
    _process_csv w path = Ok report
    /\ occurs (lit "First 5 rows:" ++ nl ++ to_string w df ++ nl) report.
Proof.
  intros Hread Hsmall. exists (csv_report w df). split.
  { unfold _process_csv. now rewrite Hread. }
  rewrite csv_report_shape, (df_head_small df Hsmall).
  exists ((lit "CSV file with " ++ str_of_nat (List.length (df_rows df))
           ++ lit " rows and " ++ str_of_nat (List.length (df_columns df))
           ++ lit " columns.") ++ nl
          ++ (lit "Columns: " ++ join (lit ", ") (map fst (df_columns df)))
          ++ nl ++ nl ++ lit "Column data types:" ++ nl
          ++ dtype_lines (df_columns df) ++ nl),
         (if (0 <? List.length (numeric_columns df))%nat
          then nl ++ (lit "Numeric column statistics:" ++ nl
                      ++ describe_to_string w (df_numeric df)) ++ nl
          else []).
  repeat rewrite <- app_assoc. reflexivity.
Qed.

Lemma process_csv_small_table_witness :
  exists report,
    _process_csv csv_world (lit "people.csv") = Ok report
    /\ occurs (lit "First 5 rows:" ++ nl ++ lit "name  age" ++ nl) report.
Proof.
  exact (process_csv_small_table csv_world (lit "people.csv") people
           eq_refl (proj1 (Nat.leb_le 2 5) eq_refl)).
Defined.

(** When no column of the table is numeric, the report has no statistics:
    it ends with the rendering of the first rows and a newline. *)
Theorem process_csv_without_numbers (w : World) (path : str)
    (df : DataFrame) :
  read_csv w path = Ok df ->
  Forall (fun c => dtype_is_number (snd c) = false) (df_columns df) ->
  exists before,
    _process_csv w path
    = Ok (before ++ lit "First 5 rows:" ++ nl ++ to_string w (df_head df)
          ++ nl).
Proof.
  intros Hread Hnone.
  assert (Hnum : numeric_columns df = []).
  { unfold numeric_columns.
    induction Hnone as [|c cols Hc _ IH]; [reflexivity|].
    cbn [filter]. now rewrite Hc. }
  unfold _process_csv. rewrite Hread. cbn [bind try_except].
  rewrite csv_report_shape, Hnum. cbn [List.length Nat.ltb Nat.leb].
  eexists. f_equal. rewrite !app_nil_r.
  repeat rewrite app_assoc. reflexivity.
Qed.

Lemma process_csv_without_numbers_witness :
  exists before,
    _process_csv names_world (lit "names.csv")
    = Ok (before ++ lit "First 5 rows:" ++ nl ++ to_string names_world (df_head names_only)
          ++ nl).
Proof.
  apply (process_csv_without_numbers names_world (lit "names.csv")
           names_only eq_refl).
  repeat constructor.
Defined.

(** ** The persister *)

Lemma hex_fixed_length (k : nat) (n : N) : List.length (hex_fixed k n) = k.
Proof.
  revert n. induction k as [|k IH]; intros n; simpl.
  - reflexivity.
  - rewrite length_app, IH. simpl. lia.
Qed.

Lemma hex_digit_inj (d d' : N) :
  (d < 16)%N -> (d' < 16)%N -> hex_digit d = hex_digit d' -> d = d'.
Proof.
  unfold hex_digit. intros H H'.
  destruct (d <? 10)%N eqn:E; destruct (d' <? 10)%N eqn:E';
    try apply N.ltb_lt in E; try apply N.ltb_lt in E';
    try apply N.ltb_ge in E; try apply N.ltb_ge in E'; lia.
Qed.

Lemma hex_digit_not_slash (d : N) : (d < 16)%N -> hex_digit d <> 47%N.
Proof.
  unfold hex_digit. intros H.
  destruct (d <? 10)%N eqn:E;
    [apply N.ltb_lt in E | apply N.ltb_ge in E]; lia.
Qed.

Lemma hex_fixed_no_slash (k : nat) (n : N) : ~ In 47%N (hex_fixed k n).
Proof.
  revert n. induction k as [|k IH]; intros n; simpl; [tauto|].
  intros H. apply in_app_or in H. destruct H as [H|[H|[]]].
  - exact (IH _ H).
  - revert H. apply hex_digit_not_slash. apply N.mod_lt. lia.
Qed.

(** Fixed-width hexadecimal writing is one-to-one below [16^k]. *)
Lemma hex_fixed_inj (k : nat) (n m : N) :
  (n < 16 ^ N.of_nat k)%N -> (m < 16 ^ N.of_nat k)%N ->
  hex_fixed k n = hex_fixed k m -> n = m.
Proof.
  revert n m. induction k as [|k IH]; intros n m Hn Hm H.
  - simpl in Hn, Hm. lia.
  - rewrite Nat2N.inj_succ, N.pow_succ_r' in Hn, Hm.
    cbn [hex_fixed] in H. apply app_inj_tail in H. destruct H as [Hhi Hlo].
    assert (Hd : (n mod 16 = m mod 16)%N).
    { apply hex_digit_inj; [apply N.mod_lt; lia|apply N.mod_lt; lia|].
      exact Hlo. }
    assert (Hq : (n / 16 = m / 16)%N).
    { apply IH; [| |exact Hhi].
      - apply N.Div0.div_lt_upper_bound. exact Hn.
      - apply N.Div0.div_lt_upper_bound. exact Hm. }
    rewrite (N.div_mod n 16), (N.div_mod m 16) by lia.
    now rewrite Hd, Hq.
Qed.

(** The five groups of a list of 32 digits, and the digits back from the
    groups. *)
Lemma uuid_groups (u : N) :
  exists h0 h1 h2 h3 h4 h5 h6 h7 h8 h9 h10 h11 h12 h13 h14 h15
         h16 h17 h18 h19 h20 h21 h22 h23 h24 h25 h26 h27 h28 h29 h30 h31,
    hex_fixed 32 u
    = [h0; h1; h2; h3; h4; h5; h6; h7; h8; h9; h10; h11; h12; h13; h14; h15;
       h16; h17; h18; h19; h20; h21; h22; h23; h24; h25; h26; h27; h28; h29;
       h30; h31]
    /\ uuid_str u
       = [h0; h1; h2; h3; h4; h5; h6; h7; 45%N; h8; h9; h10; h11; 45%N;
          h12; h13; h14; h15; 45%N; h16; h17; h18; h19; 45%N;
          h20; h21; h22; h23; h24; h25; h26; h27; h28; h29; h30; h31].
Proof.
  unfold uuid_str. cbv zeta.
  pose proof (hex_fixed_length 32 u) as Hlen.
  destruct (hex_fixed 32 u) as [|h0 h]; [discriminate Hlen|].
  do 31 (destruct h as [|? h]; [discriminate Hlen|]).
  destruct h; [|discriminate Hlen].
  do 32 eexists. split; reflexivity.
Qed.

Lemma uuid_str_length (u : N) : List.length (uuid_str u) = 36%nat.
Proof.
  destruct (uuid_groups u)
    as (h0 & h1 & h2 & h3 & h4 & h5 & h6 & h7 & h8 & h9 & h10 & h11 & h12
        & h13 & h14 & h15 & h16 & h17 & h18 & h19 & h20 & h21 & h22 & h23
        & h24 & h25 & h26 & h27 & h28 & h29 & h30 & h31 & _ & ->).
  reflexivity.
Qed.

Lemma uuid_str_inj (u v : N) :
  (u < 2 ^ 128)%N -> (v < 2 ^ 128)%N -> uuid_str u = uuid_str v -> u = v.
Proof.
  intros Hu Hv H.
  apply (hex_fixed_inj 32); [exact Hu|exact Hv|].
  destruct (uuid_groups u)
    as (h0 & h1 & h2 & h3 & h4 & h5 & h6 & h7 & h8 & h9 & h10 & h11 & h12
        & h13 & h14 & h15 & h16 & h17 & h18 & h19 & h20 & h21 & h22 & h23
        & h24 & h25 & h26 & h27 & h28 & h29 & h30 & h31 & -> & Hu').
  destruct (uuid_groups v)
    as (k0 & k1 & k2 & k3 & k4 & k5 & k6 & k7 & k8 & k9 & k10 & k11 & k12
        & k13 & k14 & k15 & k16 & k17 & k18 & k19 & k20 & k21 & k22 & k23
        & k24 & k25 & k26 & k27 & k28 & k29 & k30 & k31 & -> & Hv').
  rewrite Hu', Hv' in H. injection H. intros. subst. reflexivity.
Qed.

(** The first character of the text of a UUID is a digit, not a slash. *)
Lemma uuid_str_head (u : N) :
  exists c rest, uuid_str u = c :: rest /\ c <> 47%N.
Proof.
  destruct (uuid_groups u)
    as (h0 & h1 & h2 & h3 & h4 & h5 & h6 & h7 & h8 & h9 & h10 & h11 & h12
        & h13 & h14 & h15 & h16 & h17 & h18 & h19 & h20 & h21 & h22 & h23
        & h24 & h25 & h26 & h27 & h28 & h29 & h30 & h31 & Hhex & ->).
  do 2 eexists. split; [reflexivity|].
  intros ->. apply (hex_fixed_no_slash 32 u). rewrite Hhex. now left.
Qed.

Lemma upload_path (u : N) (filename : str) :
  posix_join (lit "uploads") (unique_filename u filename)
  = lit "uploads/" ++ uuid_str u ++ lit "_" ++ filename.
Proof.
  destruct (uuid_str_head u) as (c & rest & Hu & Hc).
  unfold posix_join, unique_filename. rewrite Hu.
  change (lit "/") with [47%N]. cbn [app]. rewrite startswith_char.
  destruct (N.eqb_spec 47 c) as [E|_]; [now subst c|].
  reflexivity.
Qed.

Lemma save_uploaded_file_ok (os : Os) (disk disk' : Disk) (u : N)
    (data : list byte) (filename path : str) :
  save_uploaded_file os disk u data filename = Ok (disk', path) ->
  path = lit "uploads/" ++ uuid_str u ++ lit "_" ++ filename
  /\ disk' = (path, data) :: disk.
Proof.
  unfold save_uploaded_file.
  destruct (makedirs_error os (lit "uploads")); [discriminate|].
  rewrite upload_path.
  destruct (open_wb_error os _); [discriminate|].
  intros H. injection H as <- <-. split; reflexivity.
Qed.

Lemma app_same_length {A : Type} (a a' b b' : list A) :
  List.length a = List.length a' -> a ++ b = a' ++ b' -> a = a' /\ b = b'.
Proof.
  revert a'. induction a as [|x a IH]; intros [|x' a'] Hlen H;
    try discriminate Hlen.
  - now split.
  - injection H as -> H. injection Hlen as Hlen.
    destruct (IH a' Hlen H) as [-> ->]. now split.
Qed.

(** When [save_uploaded_file] returns, the path it returns is
    [uploads/], the 36 characters of the UUID drawn, an underscore and the
    file name exactly as it was given, with every slash and dot it has: the
    name can be read back from the path by dropping 45 characters, and the
    bytes are on the disk under that path. *)
Theorem save_uploaded_file_path (os : Os) (disk disk' : Disk) (u : N)
    (data : list byte) (filename path : str) :
  save_uploaded_file os disk u data filename = Ok (disk', path) ->
  path = lit "uploads/" ++ uuid_str u ++ lit "_" ++ filename
  /\ List.length (uuid_str u) = 36%nat
  /\ skipn 45 path = filename
  /\ lookup path disk' = Some data.
Proof.
  intros H. destruct (save_uploaded_file_ok _ _ _ _ _ _ _ H) as [Hp Hd].
  split; [exact Hp|]. split; [apply uuid_str_length|]. split.
  - rewrite Hp.
    destruct (uuid_groups u)
      as (h0 & h1 & h2 & h3 & h4 & h5 & h6 & h7 & h8 & h9 & h10 & h11 & h12
          & h13 & h14 & h15 & h16 & h17 & h18 & h19 & h20 & h21 & h22 & h23
          & h24 & h25 & h26 & h27 & h28 & h29 & h30 & h31 & _ & ->).
    reflexivity.
  - rewrite Hd. cbn [lookup]. now rewrite str_eqb_refl.
Qed.

Lemma save_uploaded_file_path_witness :
  exists disk' path,
    save_uploaded_file willing_os [] 255 hello_bytes (lit "../notes.txt")
    = Ok (disk', path)
    /\ path = lit "uploads/00000000-0000-0000-0000-0000000000ff_../notes.txt"
    /\ skipn 45 path = lit "../notes.txt"
    /\ lookup path disk' = Some hello_bytes.
Proof.
  do 2 eexists. split; [reflexivity|].
  destruct (save_uploaded_file_path willing_os [] _ 255 hello_bytes
              (lit "../notes.txt") _ eq_refl) as (Hp & _ & Hs & Hl).
  split; [reflexivity|]. split; [exact Hs|exact Hl].
Defined.

(** Two uploads for which [uuid4] draws different values are stored under
    different paths, whatever their file names, equal or not; after the
    second upload each path still holds the bytes of its own upload. *)
Theorem save_uploaded_file_distinct (os : Os) (disk disk1 disk2 : Disk)
    (u1 u2 : N) (data1 data2 : list byte) (name1 name2 path1 path2 : str) :
  (u1 < 2 ^ 128)%N -> (u2 < 2 ^ 128)%N -> u1 <> u2 ->
  save_uploaded_file os disk u1 data1 name1 = Ok (disk1, path1) ->
  save_uploaded_file os disk1 u2 data2 name2 = Ok (disk2, path2) ->
  path1 <> path2
  /\ lookup path1 disk2 = Some data1
  /\ lookup path2 disk2 = Some data2.
Proof.
  intros Hu1 Hu2 Hne H1 H2.
  destruct (save_uploaded_file_ok _ _ _ _ _ _ _ H1) as [Hp1 Hd1].
  destruct (save_uploaded_file_ok _ _ _ _ _ _ _ H2) as [Hp2 Hd2].
  assert (Hpaths : path1 <> path2).
  { rewrite Hp1, Hp2. intros E. apply app_inv_head in E.
    apply app_same_length in E; [|now rewrite !uuid_str_length].
    destruct E as [E _]. apply Hne. now apply uuid_str_inj. }
  split; [exact Hpaths|]. rewrite Hd2, Hd1. cbn [lookup]. split.
  - rewrite (str_eqb_neq _ _ Hpaths). now rewrite str_eqb_refl.
  - now rewrite str_eqb_refl.
Qed.

Lemma save_uploaded_file_distinct_witness :
  exists disk1 path1 disk2 path2,
    save_uploaded_file willing_os [] 1 hello_bytes (lit "a.txt")
    = Ok (disk1, path1)
    /\ save_uploaded_file willing_os disk1 2 crlf_bytes (lit "a.txt")
       = Ok (disk2, path2)
    /\ path1 <> path2
    /\ lookup path1 disk2 = Some hello_bytes
    /\ lookup path2 disk2 = Some crlf_bytes.
Proof.
  do 4 eexists. split; [reflexivity|]. split; [reflexivity|].
  eapply (save_uploaded_file_distinct willing_os [] _ _ 1 2 hello_bytes
            crlf_bytes (lit "a.txt") (lit "a.txt"));
    [reflexivity | reflexivity | discriminate | reflexivity | reflexivity].
Defined.

(** A saved upload is what the text extractor reads afterwards: from the
    path that [save_uploaded_file] returned, [_process_txt] gives the
    decoded text of the uploaded bytes with universal newlines applied, and
    the decoded text itself when the upload has no CR byte. *)
Theorem saved_upload_is_extracted (w : World) (os : Os) (disk disk' : Disk)
    (u : N) (data : list byte) (filename path s : str) :
  save_uploaded_file os disk u data filename = Ok (disk', path) ->
  utf8_decode data = Some s ->
  read_bytes (world_on w disk') path = Ok data
  /\ _process_txt (world_on w disk') path = Ok (universal_newlines s)
  /\ (~ In x0d data -> _process_txt (world_on w disk') path = Ok s).
Proof.
  intros Hsave Hdec.
  destruct (save_uploaded_file_ok _ _ _ _ _ _ _ Hsave) as [_ Hd].
  assert (Hread : read_bytes (world_on w disk') path = Ok data).
  { cbn [read_bytes world_on]. rewrite Hd. cbn [lookup].
    now rewrite str_eqb_refl. }
  assert (Htxt : _process_txt (world_on w disk') path
                 = Ok (universal_newlines s)).
  { unfold _process_txt, read_text. rewrite Hread. cbn [bind].
    now rewrite Hdec. }
  split; [exact Hread|]. split; [exact Htxt|].
  intros Hcr. rewrite Htxt. f_equal.
  apply universal_newlines_without_cr. now apply (no_cr_byte_no_cr data).
Qed.

Lemma saved_upload_is_extracted_witness :
  _process_txt
    (world_on empty_world
       [(lit "uploads/00000000-0000-0000-0000-0000000000ff_hello.txt",
         hello_bytes)])
    (lit "uploads/00000000-0000-0000-0000-0000000000ff_hello.txt")
  = Ok (lit "hello").
Proof.
  exact (proj1 (proj2
    (saved_upload_is_extracted empty_world willing_os [] _ 255 hello_bytes
       (lit "hello.txt") _ (lit "hello") eq_refl eq_refl))).
Defined.

(** ** Where the error record comes from *)

Lemma subscript_raises (w : World) (v : json) (key : str) (e : exn) :
  subscript w v key = Raise e ->
  e = KeyError key \/ e = TypeError (subscript_message w v).
Proof.
  unfold subscript. destruct v; try (intros H; injection H as <-; now right).
  destruct (dict_get key items); [discriminate|].
  intros H. injection H as <-. now left.
Qed.

(** The error that [process_file] reports in its error record is one of
    four: the [ValueError] of a tag without extractor, the [KeyError] of one
    of the three keys, the [TypeError] of reading a key of a value that is
    not an object, or the validation error of the record. An error of the
    file system, of a parsing library, of the model or of [json.loads] is
    never the one reported. *)
Theorem process_file_error_origin (w : World) (fu : FileUpload)
    (tag : str) (e : exn) :
  _get_document_type w (content_type fu) = Ok tag ->
  process_steps w tag (file_path fu) = Raise e ->
  process_file w fu = Ok (error_record tag e)
  /\ ((~ In tag extractable_tags
       /\ e = ValueError (lit "Unsupported document type: " ++ tag))
      \/ (exists key, In key expected_keys /\ e = KeyError key)
      \/ (exists v, e = TypeError (subscript_message w v))
      \/ (exists vs, e = ValidationError (validation_message w vs))).
Proof.
  intros Htag Hsteps. split.
  { destruct (get_document_type_total w (content_type fu))
      as (tag' & Htag' & Hin).
    rewrite Htag in Htag'. apply Ok_inj in Htag'. subst tag'.
    rewrite (process_file_classified w fu tag Htag
               (recognized_tag_nonempty tag Hin)).
    now rewrite Hsteps. }
  unfold process_steps in Hsteps.
  destruct (in_dec (list_eq_dec N.eq_dec) tag extractable_tags) as [Hin|Hnot].
  2:{ left. split; [exact Hnot|].
      rewrite (extract_unsupported w tag _ Hnot) in Hsteps.
      now injection Hsteps as <-. }
  right.
  destruct (extract_extractable w tag (file_path fu) Hin) as (text & Hext).
  rewrite Hext in Hsteps. cbn [bind] in Hsteps.
  destruct (analyze_content_total w text tag) as (v & Hv).
  rewrite Hv in Hsteps. cbn [bind] in Hsteps.
  destruct (subscript w v (lit "summary")) as [sv|e1] eqn:E1.
  2:{ injection Hsteps as <-. destruct (subscript_raises _ _ _ _ E1) as [->| ->].
      - left. exists (lit "summary"). split; [now left|reflexivity].
      - right. left. now exists v. }
  cbn [bind] in Hsteps.
  destruct (subscript w v (lit "key_insights")) as [kv|e2] eqn:E2.
  2:{ injection Hsteps as <-. destruct (subscript_raises _ _ _ _ E2) as [->| ->].
      - left. exists (lit "key_insights"). split; [right; now left|reflexivity].
      - right. left. now exists v. }
  cbn [bind] in Hsteps.
  destruct (subscript w v (lit "questions_answered")) as [qv|e3] eqn:E3.
  2:{ injection Hsteps as <-. destruct (subscript_raises _ _ _ _ E3) as [->| ->].
      - left. exists (lit "questions_answered").
        split; [right; right; now left|reflexivity].
      - right. left. now exists v. }
  cbn [bind] in Hsteps. right. right.
  unfold DocumentAnalysis_init in Hsteps.
  exists [JStr tag; sv; kv; qv].
  repeat match type of Hsteps with
         | context [match ?x with _ => _ end] => destruct x
         end;
    try discriminate Hsteps; now injection Hsteps as <-.
Qed.

Lemma process_file_error_origin_witness :
  process_file empty_object_world (upload "text/plain" "notes.txt")
  = Ok (error_record (lit "TXT") (KeyError (lit "summary"))).
Proof.
  exact (proj1
    (process_file_error_origin empty_object_world
       (upload "text/plain" "notes.txt") (lit "TXT")
       (KeyError (lit "summary")) eq_refl eq_refl)).
Defined.
